(** * converse-chronicle: recording handlers and the detail view's player

    A shallow embedding of [backend/src/controllers.ts] (the five request
    handlers over the ORM, the object store, the transcription client and the
    duration prober) and of the playback-status callback of
    [frontend/app/components/RecordingDetails.tsx].

    The handlers are [async] functions that thread a world (scratch files,
    object store, database, console) through awaited calls and may reject;
    they are written here in a state-and-exception monad [Async]. *)

From Stdlib Require Import ZArith QArith Qround Qabs Lia Lqa.
From stdpp Require Import gmap strings list fin_maps pretty.

Local Open Scope string_scope.

(** ** JavaScript values *)

(** Handler results are plain objects; [{...o, k: v}] is map insertion. *)
#[warnings="-register-all"]
Inductive JsVal : Type :=
| JUndefined
| JNull
| JStr (s : string)
| JNum (q : Q)
| JDate (t : nat)
| JArr (l : list JsVal)
| JObj (o : gmap string JsVal).

Abbreviation JsObject := (gmap string JsVal).

(** [a ?? b]: the right operand only for an absent ([null]/[undefined]) left one. *)
Definition nullish {A} (a : option A) (b : A) : A :=
  match a with Some x => x | None => b end.

(** [Math.round]: the nearest integer, ties towards plus infinity. *)
Definition Math_round (x : Q) : Z := Qfloor (x + (1 # 2)).

(** ** Data model *)

Abbreviation bytes := (list Byte.byte).

Module Utterance.
(** One speaker-attributed span, as the transcription client reports it and
    as the [utterances.create] input carries it. *)
Record t : Type := mk
  { speaker : string; transcript : string; start : Q; end_ : Q }.
End Utterance.

Module Conversation.
(** Modelled from the spec: the table's schema is not in [controllers.ts].
    The columns are those the handlers write and select and the persisted
    schema lists: Recording(id, title, userId, recording_url, file_path,
    transcript, summary, duration, createdAt, updatedAt) with child
    collections Topic(topic) and Utterance(speaker, transcript, start, end).
    Children live inside the parent row, so deleting the parent cascades. *)
Record t : Type := mk
  { id : string;
    title : string;
    userId : string;
    recording_url : string;
    file_path : string;
    transcript : string;
    summary : string;
    duration : Z;
    createdAt : nat;
    updatedAt : nat;
    topics : list string;
    utterances : list Utterance.t }.
End Conversation.

Module Transcription.
(** What [transcribeFile] resolves to. The handler guards [title],
    [shortSummary], [allTopics] and [allUtterances] against absence
    ([??] and [? :]) and uses [transcript] as it is. *)
Record t : Type := mk
  { transcript : string;
    title : option string;
    shortSummary : option string;
    allTopics : option (list string);
    allIntents : option (list string);
    allUtterances : option (list Utterance.t) }.
End Transcription.

(** Requests ([./model]). [recordingBody] may be absent: the handler writes
    [recordingBody!]. The optional fields of an update are [undefined] when
    not supplied. *)
Record CreateRequest := { cr_userId : string; cr_recordingBody : option bytes }.
Record GetRequest := { gr_recordingId : string }.
Record ListRequest := { lr_userId : string }.
Record DeleteRequest := { dr_recordingId : string }.
Record UpdateRequest :=
  { ur_recordingId : string; ur_title : option string; ur_transcript : option string }.

(** ** The world the handlers run in *)

Record World : Type := mkWorld
  { fs : gmap string bytes;                          (* files on the local disk *)
    bucket : gmap (string * string) (bytes * string); (* (bucket, key) to (body, content type) *)
    db : gmap string Conversation.t;                 (* [conversation] rows by id *)
    uuids : nat;                                     (* uuids drawn so far *)
    inserted : nat;                                  (* rows ever inserted *)
    clock : nat;                                     (* current instant *)
    console : list (list JsVal) }.                   (* [console.log] lines, newest first *)

Definition set_fs (f : gmap string bytes) (w : World) : World :=
  mkWorld f (bucket w) (db w) (uuids w) (inserted w) (clock w) (console w).
Definition set_bucket (b : gmap (string * string) (bytes * string)) (w : World) : World :=
  mkWorld (fs w) b (db w) (uuids w) (inserted w) (clock w) (console w).
Definition set_db (d : gmap string Conversation.t) (w : World) : World :=
  mkWorld (fs w) (bucket w) d (uuids w) (inserted w) (clock w) (console w).

(** Reasons for which an awaited call rejects. *)
Inductive Rejection : Type :=
| TypeError                  (* an [undefined] buffer handed to a call that needs one *)
| ENOENT (path : string)     (* no such file *)
| ProbeFailed                (* the prober could not read the audio *)
| TranscriptionFailed
| StorageFailed
| PrismaKnownRequestError (code : string).

Definition P2002 := PrismaKnownRequestError "P2002". (* unique constraint failed *)
Definition P2025 := PrismaKnownRequestError "P2025". (* record to act on not found *)

Inductive Outcome (A : Type) : Type :=
| Resolved (a : A)
| Rejected (e : Rejection).
Arguments Resolved {A} a.
Arguments Rejected {A} e.

(** An awaited computation: runs in a world, resolves or rejects, and leaves
    a world behind either way. *)
Definition Async (A : Type) : Type := World -> Outcome A * World.

Definition ret {A} (a : A) : Async A := fun w => (Resolved a, w).
Definition throw {A} (e : Rejection) : Async A := fun w => (Rejected e, w).
Definition bind {A B} (m : Async A) (k : A -> Async B) : Async B :=
  fun w => match m w with
           | (Resolved a, w') => k a w'
           | (Rejected e, w') => (Rejected e, w')
           end.

Notation "x <- m ;; k" := (bind m (fun x => k))
  (at level 100, m at next level, right associativity).
Notation "m ;;; k" := (bind m (fun _ => k))
  (at level 100, right associativity).

(** ** Rows as the ORM hands them out *)

Definition topic_object (t : string) : JsVal := JObj {[ "topic" := JStr t ]}.

Definition utterance_object (u : Utterance.t) : JsVal :=
  JObj (<["speaker" := JStr (Utterance.speaker u)]>
       (<["transcript" := JStr (Utterance.transcript u)]>
       (<["start" := JNum (Utterance.start u)]>
       {[ "end" := JNum (Utterance.end_ u) ]}))).

(** The columns of a row. *)
Definition scalars (c : Conversation.t) : JsObject :=
  <["id" := JStr (Conversation.id c)]>
  (<["title" := JStr (Conversation.title c)]>
  (<["userId" := JStr (Conversation.userId c)]>
  (<["recording_url" := JStr (Conversation.recording_url c)]>
  (<["file_path" := JStr (Conversation.file_path c)]>
  (<["transcript" := JStr (Conversation.transcript c)]>
  (<["summary" := JStr (Conversation.summary c)]>
  (<["duration" := JNum (inject_Z (Conversation.duration c))]>
  (<["createdAt" := JDate (Conversation.createdAt c)]>
  {[ "updatedAt" := JDate (Conversation.updatedAt c) ]})))))))).

(** The child collections of a row. *)
Definition relations (c : Conversation.t) : JsObject :=
  <["topics" := JArr (topic_object <$> Conversation.topics c)]>
  {[ "utterances" := JArr (utterance_object <$> Conversation.utterances c) ]}.

(** A [select] or [include] argument: [{ k: true, ... }]. *)
Abbreviation FieldSpec := (list (string * bool)).

Definition chosen (spec : FieldSpec) (k : string) : bool :=
  bool_decide ((k, true) ∈ spec).

Definition restrict (spec : FieldSpec) (o : JsObject) : JsObject :=
  filter (fun kv => chosen spec kv.1 = true) o.

(** [include]: every column, and the relations asked for. *)
Definition prisma_include (spec : FieldSpec) (c : Conversation.t) : JsObject :=
  scalars c ∪ restrict spec (relations c).

(** [select]: the columns and relations asked for, and nothing else. *)
Definition prisma_select (spec : FieldSpec) (c : Conversation.t) : JsObject :=
  restrict spec (scalars c ∪ relations c).

(** A nested write: [{}] or [{ create: [...] }]. *)
Inductive Nested (A : Type) : Type :=
| NoNested
| NestedCreate (rows : list A).
Arguments NoNested {A}.
Arguments NestedCreate {A} rows.

Definition nested_rows {A} (n : Nested A) : list A :=
  match n with NoNested => [] | NestedCreate rows => rows end.

Module CreateData.
(** The [data] of [prisma.conversation.create]. *)
Record t : Type := mk
  { title : string;
    userId : string;
    recording_url : string;
    file_path : string;
    transcript : string;
    summary : string;
    topics : Nested string;
    utterances : Nested Utterance.t;
    duration : Z }.
End CreateData.

Module UpdateData.
(** The [data] of [prisma.conversation.update]; an [undefined] entry is no entry. *)
Record t : Type := mk { title : option string; transcript : option string }.
End UpdateData.

(** ** What the handlers import *)

(** The modules the handlers import and that lie outside
    [controllers.ts]: [uuid], [os], [get-audio-duration], [./constant],
    [./apis/transcribe], [./apis/supabase], the locale of [Date] and the id
    default of the table. Each is taken as given. *)
Record Services : Type := mkServices
  { uuid_v4 : nat -> string;            (* the n-th identifier [uuid()] returns *)
    FILE_EXTENSION : string;
    BUCKET_NAME : string;
    tmpdir : string;
    probe : bytes -> option Q;          (* playback length in seconds, if readable *)
    transcribe : bytes -> option Transcription.t;
    storage_accepts : string -> string -> bytes -> string -> bool;
    presign : string -> string -> nat -> option string;
    toLocaleDateString : nat -> string;
    default_id : nat -> string }.       (* the id the table gives its n-th row *)

Section Handlers.

Context (sv : Services).

(** *** Awaited primitives *)

Definition uuid : Async string :=
  fun w => (Resolved (uuid_v4 sv (uuids w)),
            mkWorld (fs w) (bucket w) (db w) (S (uuids w)) (inserted w) (clock w) (console w)).

(** [path.join] of a directory and a file name. *)
Definition join (dir name : string) : string := dir ++ "/" ++ name.

Definition console_log (line : list JsVal) : Async unit :=
  fun w => (Resolved tt,
            mkWorld (fs w) (bucket w) (db w) (uuids w) (inserted w) (clock w) (line :: console w)).

Definition new_Date : Async nat := fun w => (Resolved (clock w), w).

(** [fs.promises.writeFile]: a missing buffer is a type error and nothing is written. *)
Definition writeFile (path : string) (data : option bytes) : Async unit :=
  match data with
  | None => throw TypeError
  | Some b => fun w => (Resolved tt, set_fs (<[path := b]> (fs w)) w)
  end.

(** [fs.promises.unlink]. *)
Definition unlink (path : string) : Async unit :=
  fun w => match fs w !! path with
           | None => (Rejected (ENOENT path), w)
           | Some _ => (Resolved tt, set_fs (delete path (fs w)) w)
           end.

(** [getAudioDurationInSeconds]: probes the file at [path]. *)
Definition getAudioDurationInSeconds (path : string) : Async Q :=
  fun w => match fs w !! path with
           | None => (Rejected (ENOENT path), w)
           | Some content =>
               match probe sv content with
               | None => (Rejected ProbeFailed, w)
               | Some d => (Resolved d, w)
               end
           end.

Definition transcribeFile (data : option bytes) : Async Transcription.t :=
  match data with
  | None => throw TypeError
  | Some b => match transcribe sv b with
              | None => throw TranscriptionFailed
              | Some r => ret r
              end
  end.

Definition uploadBuffer (bkt path : string) (data : option bytes) (contentType : string)
  : Async unit :=
  match data with
  | None => throw TypeError
  | Some b =>
      if storage_accepts sv bkt path b contentType
      then fun w => (Resolved tt, set_bucket (<[(bkt, path) := (b, contentType)]> (bucket w)) w)
      else throw StorageFailed
  end.

Definition generatePresignedUrl (bkt path : string) : Async string :=
  fun w => match presign sv bkt path (clock w) with
           | None => (Rejected StorageFailed, w)
           | Some url => (Resolved url, w)
           end.

(** *** The ORM calls on the [conversation] table *)

(** Modelled from the spec: the schema's defaults are not in
    [controllers.ts]; the identifier is generated and unique and the two
    timestamps are those of creation. The row a [create] writes has the
    given data, these defaults, and the nested children. *)
Definition new_row (d : CreateData.t) (w : World) : Conversation.t :=
  Conversation.mk (default_id sv (inserted w))
    (CreateData.title d) (CreateData.userId d) (CreateData.recording_url d)
    (CreateData.file_path d) (CreateData.transcript d) (CreateData.summary d)
    (CreateData.duration d) (clock w) (clock w)
    (nested_rows (CreateData.topics d)) (nested_rows (CreateData.utterances d)).

(** [prisma.conversation.create({ data })]: one write for the row and its
    children; resolves to the columns of the new row. *)
Definition prisma_conversation_create (d : CreateData.t) : Async JsObject :=
  fun w =>
    let row := new_row d w in
    match db w !! Conversation.id row with
    | Some _ => (Rejected P2002, w)
    | None =>
        (Resolved (scalars row),
         mkWorld (fs w) (bucket w) (<[Conversation.id row := row]> (db w))
                 (uuids w) (S (inserted w)) (clock w) (console w))
    end.

(** [prisma.conversation.findUnique({ where: { id }, include })]: [null] when
    there is no such row. *)
Definition prisma_conversation_findUnique (id : string) (include : FieldSpec)
  : Async (option JsObject) :=
  fun w => (Resolved (prisma_include include <$> db w !! id), w).

(** [prisma.conversation.findMany({ where: { userId }, select })]. *)
Definition prisma_conversation_findMany (userId : string) (select : FieldSpec)
  : Async (list JsObject) :=
  fun w =>
    (Resolved (prisma_select select <$>
                 filter (fun c => Conversation.userId c = userId)
                        (snd <$> map_to_list (db w))), w).

(** [prisma.conversation.delete({ where: { id } })]: rejects when there is no
    such row; otherwise removes it with its children. *)
Definition prisma_conversation_delete (id : string) : Async JsObject :=
  fun w => match db w !! id with
           | None => (Rejected P2025, w)
           | Some row => (Resolved (scalars row), set_db (delete id (db w)) w)
           end.

(** Modelled from the spec: the schema, which would say how the timestamp
    columns behave on a write, is not in [controllers.ts]; an update
    overwrites the given fields and unspecified fields are left untouched.
    An entry of [data] that is [undefined] is an unspecified field. *)
Definition updated_row (d : UpdateData.t) (c : Conversation.t) : Conversation.t :=
  Conversation.mk (Conversation.id c)
    (nullish (UpdateData.title d) (Conversation.title c))
    (Conversation.userId c) (Conversation.recording_url c) (Conversation.file_path c)
    (nullish (UpdateData.transcript d) (Conversation.transcript c))
    (Conversation.summary c) (Conversation.duration c)
    (Conversation.createdAt c) (Conversation.updatedAt c)
    (Conversation.topics c) (Conversation.utterances c).

(** [prisma.conversation.update({ where: { id }, data })]. *)
Definition prisma_conversation_update (id : string) (d : UpdateData.t) : Async JsObject :=
  fun w => match db w !! id with
           | None => (Rejected P2025, w)
           | Some row =>
               let row' := updated_row d row in
               (Resolved (scalars row'), set_db (<[id := row']> (db w)) w)
           end.

(** *** The handlers of [controllers.ts] *)

Definition createRecording (req : CreateRequest) : Async JsObject :=
  let userId := cr_userId req in
  let recordingBody := cr_recordingBody req in
  u <- uuid ;;
  let tempFilePath := join (tmpdir sv) (u ++ FILE_EXTENSION sv) in
  writeFile tempFilePath recordingBody ;;;
  seconds <- getAudioDurationInSeconds tempFilePath ;;
  let durationInSeconds := Math_round seconds in
  console_log [JStr "durationInSeconds: "; JNum (inject_Z durationInSeconds)] ;;;
  unlink tempFilePath ;;;
  r <- transcribeFile recordingBody ;;
  let transcript := Transcription.transcript r in
  let title := Transcription.title r in
  let shortSummary := Transcription.shortSummary r in
  let allTopics := Transcription.allTopics r in
  let allUtterances := Transcription.allUtterances r in
  console_log [JStr "file transcribed successfully"] ;;;
  recordingId <- uuid ;;
  let filePath := userId ++ "/" ++ recordingId ++ FILE_EXTENSION sv in
  uploadBuffer (BUCKET_NAME sv) filePath recordingBody "audio/x-m4a" ;;;
  now <- new_Date ;;
  newRecording <- prisma_conversation_create
    {| CreateData.title := nullish title ("conversation_" ++ toLocaleDateString sv now);
       CreateData.userId := userId;
       CreateData.recording_url := "";
       CreateData.file_path := filePath;
       CreateData.transcript := transcript;
       CreateData.summary := nullish shortSummary "";
       CreateData.topics :=
         match allTopics with
         | Some ts => NestedCreate (map (fun topic => topic) ts)
         | None => NoNested
         end;
       CreateData.utterances :=
         match allUtterances with
         | Some us =>
             NestedCreate
               (map (fun utterance =>
                       Utterance.mk (Utterance.speaker utterance)
                                    (Utterance.transcript utterance)
                                    (Utterance.start utterance)
                                    (Utterance.end_ utterance)) us)
         | None => NoNested
         end;
       CreateData.duration := durationInSeconds |} ;;
  console_log [JStr "Created recording in db successfully"] ;;;
  ret (<["summary" := JStr (nullish shortSummary "")]>
       (<["transcript" := JStr transcript]>
       (<["filePath" := JStr filePath]> newRecording))).

(** The scratch path and the storage key of a run that starts in [w]: the
    first and the second identifier drawn. *)
Definition tempFilePath_in (w : World) : string :=
  join (tmpdir sv) (uuid_v4 sv (uuids w) ++ FILE_EXTENSION sv).
Definition filePath_in (userId : string) (w : World) : string :=
  userId ++ "/" ++ uuid_v4 sv (S (uuids w)) ++ FILE_EXTENSION sv.

(** The row a run writes, given what the prober and the transcription
    client answered. *)
Definition written_row (userId : string) (seconds : Q) (r : Transcription.t) (w : World)
  : Conversation.t :=
  Conversation.mk (default_id sv (inserted w))
    (nullish (Transcription.title r) ("conversation_" ++ toLocaleDateString sv (clock w)))
    userId "" (filePath_in userId w)
    (Transcription.transcript r) (nullish (Transcription.shortSummary r) "")
    (Math_round seconds) (clock w) (clock w)
    (default [] (Transcription.allTopics r))
    (default [] (Transcription.allUtterances r)).

Definition getRecording (req : GetRequest) : Async (option JsObject) :=
  let id := gr_recordingId req in
  conversation <- prisma_conversation_findUnique id [("topics", true); ("utterances", true)] ;;
  match conversation with
  | Some c =>
      match c !! "file_path" with
      | Some (JStr file_path) =>
          recordingUrl <- generatePresignedUrl (BUCKET_NAME sv) file_path ;;
          ret (Some (<["recordingUrl" := JStr recordingUrl]> c))
      | _ => throw TypeError
      end
  | None => ret conversation
  end.

Definition listRecordings (req : ListRequest) : Async (list JsObject) :=
  let userId := lr_userId req in
  conversationsInfo <- prisma_conversation_findMany userId
    [("id", true); ("title", true); ("topics", true);
     ("createdAt", true); ("updatedAt", true); ("duration", true)] ;;
  ret conversationsInfo.

Definition deleteRecording (req : DeleteRequest) : Async JsObject :=
  let recordingId := dr_recordingId req in
  result <- prisma_conversation_delete recordingId ;;
  console_log [JObj result] ;;;
  ret result.

Definition updateRecording (req : UpdateRequest) : Async JsObject :=
  let recordingId := ur_recordingId req in
  let title := ur_title req in
  let transcript := ur_transcript req in
  result <- prisma_conversation_update recordingId
    {| UpdateData.title := title; UpdateData.transcript := transcript |} ;;
  console_log [JObj result] ;;;
  ret result.

End Handlers.

(** ** The detail view's player ([RecordingDetails.tsx]) *)

(** [AVPlaybackStatus]: either not loaded, or loaded with a position, an
    optional duration and the flag that playback just ran to its end.
    Milliseconds are integers. *)
Inductive AVPlaybackStatus : Type :=
| NotLoaded (error : option string)
| Loaded (positionMillis : Z) (durationMillis : option Z)
         (isPlaying didJustFinish : bool).

Definition isLoaded (s : AVPlaybackStatus) : bool :=
  match s with NotLoaded _ => false | Loaded _ _ _ _ => true end.

(** [status.didJustFinish]; [undefined], hence falsy, on a status that is not loaded. *)
Definition didJustFinish (s : AVPlaybackStatus) : bool :=
  match s with NotLoaded _ => false | Loaded _ _ _ f => f end.

(** [status.positionMillis] and [status.durationMillis]; [undefined] where
    the status has no such field. *)
Definition positionMillis (s : AVPlaybackStatus) : option Z :=
  match s with NotLoaded _ => None | Loaded p _ _ _ => Some p end.
Definition durationMillis (s : AVPlaybackStatus) : option Z :=
  match s with NotLoaded _ => None | Loaded _ d _ _ => d end.

(** [n || 0] for an optional number: zero when absent or zero. *)
Definition or_zero (n : option Z) : Z :=
  match n with
  | Some v => if Z.eqb v 0 then 0%Z else v
  | None => 0%Z
  end.

(** The component's audio state hooks. *)
Record PlayerState : Type := mkPlayer
  { isPlaying : bool;
    isLoadingAudio : bool;
    position : Z;
    duration : Z }.

Definition setPosition (p : Z) (st : PlayerState) : PlayerState :=
  mkPlayer (isPlaying st) (isLoadingAudio st) p (duration st).
Definition setDuration (d : Z) (st : PlayerState) : PlayerState :=
  mkPlayer (isPlaying st) (isLoadingAudio st) (position st) d.
Definition setIsPlaying (b : bool) (st : PlayerState) : PlayerState :=
  mkPlayer b (isLoadingAudio st) (position st) (duration st).

(** The callback handed to [Audio.Sound.createAsync] in [downloadAudio]. *)
Definition onPlaybackStatusUpdate (status : AVPlaybackStatus) (st : PlayerState)
  : PlayerState :=
  let st1 :=
    match status with
    | Loaded positionMillis durationMillis _ _ =>
        setDuration (or_zero durationMillis) (setPosition positionMillis st)
    | NotLoaded _ => st
    end in
  if isLoaded status && didJustFinish status
  then setIsPlaying false st1
  else st1.

(** ** The detail view's other functions ([RecordingDetails.tsx]) *)





Module DetailUtterance.
(** The [Utterance] interface of the view. *)
Record t : Type := mk
  { id : string; speaker : string; transcript : string; start : Q; end_ : Q }.
End DetailUtterance.

Module Details.
(** The [RecordingDetailsData] interface of the view. *)
Record t : Type := mk
  { id : string;
    title : string;
    createdAt : string;
    duration : Z;
    summary : option string;
    transcript : option string;
    utterances : option (list DetailUtterance.t);
    recordingUrl : string }.
End Details.

(** Truthiness of a string: every string but the empty one. *)
Definition truthy (s : string) : bool :=
  match s with EmptyString => false | String _ _ => true end.

(** The state hooks of the component; [sound] is the uri the loaded
    [Audio.Sound] plays. *)
Record Component : Type := mkComponent
  { isLoading : bool;
    error : option string;
    recordingDetails : option Details.t;
    sound : option string;
    player : PlayerState }.

(** The hooks' initial values. *)
Definition initial : Component :=
  mkComponent true None None None (mkPlayer false false 0 0).

Definition setIsLoading (b : bool) (c : Component) : Component :=
  mkComponent b (error c) (recordingDetails c) (sound c) (player c).
Definition setError (e : option string) (c : Component) : Component :=
  mkComponent (isLoading c) e (recordingDetails c) (sound c) (player c).
Definition setRecordingDetails (r : option Details.t) (c : Component) : Component :=
  mkComponent (isLoading c) (error c) r (sound c) (player c).
Definition setSound (s : option string) (c : Component) : Component :=
  mkComponent (isLoading c) (error c) (recordingDetails c) s (player c).
Definition with_player (f : PlayerState -> PlayerState) (c : Component) : Component :=
  mkComponent (isLoading c) (error c) (recordingDetails c) (sound c) (f (player c)).

(** The device the view runs on: local files, the sound the native player
    has loaded and whether it is playing, and the console (each line by its
    label). *)
Record Device : Type := mkDevice
  { documents : gmap string bytes;
    loaded : option string;
    playing : bool;
    logged : list string }.

Definition log (label : string) (d : Device) : Device :=
  mkDevice (documents d) (loaded d) (playing d) (label :: logged d).

(** What [response.json()] gives: not JSON at all, [null], or a value whose
    [data] property is a recording or absent. *)
Inductive JsonBody : Type :=
| NotJson
| JsonNull
| JsonValue (data : option Details.t).

(** What [fetch] gives: a rejection, or a response. *)
Inductive HttpResult : Type :=
| NetworkError
| Response (ok : bool) (body : JsonBody).

(** What the view imports and that lies outside the component: the backend
    address, the auth hook, [fetch], [expo-file-system] and [expo-av]. *)
Record Client : Type := mkClient
  { ENV_prod : string;
    getToken : option (option string);        (* [None]: the call rejects *)
    fetch : string -> string -> HttpResult;   (* by URL and [Authorization] header *)
    documentDirectory : string;
    served : string -> option bytes;          (* what a URL downloads to, if it does *)
    playable : bytes -> bool }.               (* whether the player can load the file *)

Section View.

Context (cl : Client).

(** [FileSystem.downloadAsync]. *)
Definition downloadAsync (url fileUri : string) (d : Device) : option Device :=
  match served cl url with
  | Some b => Some (mkDevice (<[fileUri := b]> (documents d)) (loaded d) (playing d) (logged d))
  | None => None
  end.

(** [Audio.Sound.createAsync({ uri }, { shouldPlay: false }, callback)]. *)
Definition createAsync (fileUri : string) (d : Device) : option (string * Device) :=
  match documents d !! fileUri with
  | Some b =>
      if playable cl b
      then Some (fileUri, mkDevice (documents d) (Some fileUri) false (logged d))
      else None
  | None => None
  end.

(** [sound.playAsync()] and [sound.pauseAsync()]: rejected for a sound the
    player no longer has loaded. *)
Definition playAsync (s : string) (d : Device) : option Device :=
  if decide (loaded d = Some s)
  then Some (mkDevice (documents d) (loaded d) true (logged d)) else None.
Definition pauseAsync (s : string) (d : Device) : option Device :=
  if decide (loaded d = Some s)
  then Some (mkDevice (documents d) (loaded d) false (logged d)) else None.

(** [sound.unloadAsync()], run when the view unmounts. *)
Definition unloadAsync (s : string) (d : Device) : Device :=
  if decide (loaded d = Some s)
  then mkDevice (documents d) None false (logged d) else d.

Definition fetchRecordingDetails (recordingId : string) (c : Component) (d : Device)
  : Component * Device :=
  let c1 := setError None (setIsLoading true c) in
  let caught (d' : Device) :=
    (setError (Some "Failed to load recording details") c1,
     log "Error fetching recording details:" d') in
  let '(c2, d2) :=
    match getToken cl with
    | None => caught d
    | Some token =>
        match fetch cl (ENV_prod cl ++ "/recordings/" ++ recordingId)
                    ("Bearer " ++ default "null" token) with
        | NetworkError => caught d
        | Response false _ => caught d
        | Response true NotJson => caught d
        | Response true JsonNull => caught (log "recording details" d)
        | Response true (JsonValue data) =>
            (setRecordingDetails data c1, log "recording details" d)
        end
    end in
  (setIsLoading false c2, d2).

Definition downloadAudio (url : string) (c : Component) (d : Device)
  : Component * Device :=
  let c1 := with_player (fun p => mkPlayer (isPlaying p) true (position p) (duration p)) c in
  let caught (d' : Device) := (c1, log "Error downloading audio:" d') in
  let '(c2, d2) :=
    match recordingDetails c with
    | None => caught d
    | Some details =>
        let fileUri := documentDirectory cl ++ Details.id details ++ ".m4a" in
        let d1 := log "fileUri" d in
        match downloadAsync url fileUri d1 with
        | None => caught d1
        | Some d2 =>
            match createAsync fileUri d2 with
            | None => caught d2
            | Some (newSound, d3) => (setSound (Some newSound) c1, d3)
            end
        end
    end in
  (with_player (fun p => mkPlayer (isPlaying p) false (position p) (duration p)) c2, d2).

Definition playRecording (c : Component) (d : Device) : Component * Device :=
  match sound c with
  | Some s =>
      if isPlaying (player c)
      then
        let d1 := log "pausing sound" d in
        match pauseAsync s d1 with
        | Some d2 => (with_player (setIsPlaying false) c, d2)
        | None => (c, log "Error playing recording:" d1)
        end
      else
        let d1 := log "playing sound" d in
        match playAsync s d1 with
        | Some d2 => (with_player (setIsPlaying true) c, d2)
        | None => (c, log "Error playing recording:" d1)
        end
  | None => (c, log "no sound to play" d)
  end.

(** The two effects that follow mounting: fetch the record, then, when it
    carries a truthy [recordingUrl], download its audio. *)
Definition mount (recordingId : string) (c : Component) (d : Device)
  : Component * Device :=
  let '(c1, d1) := fetchRecordingDetails recordingId c d in
  match recordingDetails c1 with
  | Some details =>
      if truthy (Details.recordingUrl details)
      then downloadAudio (Details.recordingUrl details) c1 d1
      else (c1, d1)
  | None => (c1, d1)
  end.

End View.

(** What the component renders, by the branch of its conditional. *)
Inductive Screen : Type :=
| Spinner
| ErrorText (message : string)
| DetailsView (details : Details.t)
| Blank.

Definition screen (c : Component) : Screen :=
  if isLoading c then Spinner
  else match error c with
       | Some (String a rest) => ErrorText (String a rest)
       | _ =>
           match recordingDetails c with
           | Some details => DetailsView details
           | None => Blank
           end
       end.

(** The name of the player button's icon. *)
Definition icon (c : Component) : string :=
  if isLoadingAudio (player c) then "hourglass-outline"
  else if isPlaying (player c) then "pause-circle" else "play-circle".

(** The native player reports that playback ran to its end at [millis]: it
    stops, and the component's callback receives the status. *)
Definition finished (millis : Z) (c : Component) (d : Device) : Component * Device :=
  (with_player (onPlaybackStatusUpdate (Loaded millis (Some millis) false true)) c,
   mkDevice (documents d) (loaded d) false (logged d)).

(** The component's play flag agrees with the native player. *)
Definition in_sync (c : Component) (d : Device) : Prop :=
  isPlaying (player c) = playing d.

(** ** Rows under their own id *)

(** Every row of the table is found under the id it carries. *)
Definition keyed (w : World) : Prop :=
  forall id c, db w !! id = Some c -> Conversation.id c = id.

(** The [select] of [listRecordings]. *)
Definition list_select : FieldSpec :=
  [("id", true); ("title", true); ("topics", true);
   ("createdAt", true); ("updatedAt", true); ("duration", true)].

(** ** Rows that differ in one column *)

(** The row [c] with [s] in its [recording_url] column. *)
Definition with_recording_url (s : string) (c : Conversation.t) : Conversation.t :=
  Conversation.mk (Conversation.id c) (Conversation.title c) (Conversation.userId c)
    s (Conversation.file_path c) (Conversation.transcript c) (Conversation.summary c)
    (Conversation.duration c) (Conversation.createdAt c) (Conversation.updatedAt c)
    (Conversation.topics c) (Conversation.utterances c).

(** ** Test doubles *)

Module Stub.

(** A transcription in which everything optional is present. *)
Definition full : Transcription.t :=
  Transcription.mk "hi" (Some "Greeting") (Some "s")
    (Some ["greeting"]) (Some [])
    (Some [Utterance.mk "A" "hi" 0 1]).

(** A transcription without title, topic list and utterance list. *)
Definition bare : Transcription.t :=
  Transcription.mk "hi" None None None None None.

(** Buffers starting with byte 00 transcribe to [bare], others to [full];
    the empty buffer is not audio. Every readable buffer lasts 42.5 s. *)
Definition services : Services :=
  {| uuid_v4 := fun n => match n with 0 => "a1" | 1 => "b2" | _ => "c3" end;
     FILE_EXTENSION := ".m4a";
     BUCKET_NAME := "recordings";
     tmpdir := "/tmp";
     probe := fun b => match b with [] => None | _ => Some (85 # 2) end;
     transcribe := fun b =>
       match b with
       | [] => None
       | Byte.x00 :: _ => Some bare
       | _ => Some full
       end;
     storage_accepts := fun _ _ _ _ => true;
     presign := fun bkt path t => Some ("https://storage/" ++ bkt ++ "/" ++ path ++ "?sig");
     toLocaleDateString := fun _ => "11/2/2026";
     default_id := fun n => match n with 0 => "row0" | _ => "row1" end |}.

Definition world : World := mkWorld ∅ ∅ ∅ 0 0 0 [].

Definition audio : bytes := [Byte.x01; Byte.x02].
Definition untitled_audio : bytes := [Byte.x00; Byte.x02].

Definition stored : Conversation.t :=
  Conversation.mk "row7" "Standup" "user1" "" "user1/b2.m4a" "hello" "s" 42 5 5
    ["greeting"] [Utterance.mk "A" "hello" 0 1].

Definition world1 : World := mkWorld ∅ ∅ {[ "row7" := stored ]} 0 0 9 [].

Definition request : CreateRequest :=
  {| cr_userId := "user1"; cr_recordingBody := Some audio |}.
Definition untitled_request : CreateRequest :=
  {| cr_userId := "user1"; cr_recordingBody := Some untitled_audio |}.
Definition unreadable_request : CreateRequest :=
  {| cr_userId := "user1"; cr_recordingBody := Some [] |}.

(** The object a run resolved to (empty if it rejected). *)
Definition response (run : Outcome JsObject * World) : JsObject :=
  match run.1 with Resolved o => o | Rejected _ => ∅ end.

End Stub.

Module ViewStub.

Definition details : Details.t :=
  Details.mk "row7" "Standup" "2026-11-02T09:00:00Z" 42 (Some "s") (Some "hello")
    (Some [DetailUtterance.mk "u1" "A" "hello" 0 1])
    "https://storage/recordings/user1/b2.m4a?sig".

(** A signed-in client whose backend knows [row7] only, answers with an
    envelope without [data] for [empty], and whose storage serves one
    playable file. *)
Definition client : Client :=
  {| ENV_prod := "https://api";
     getToken := Some (Some "tok");
     fetch := fun url auth =>
       if decide (url = "https://api/recordings/row7") then
         Response true (JsonValue (Some details))
       else if decide (url = "https://api/recordings/empty") then
         Response true (JsonValue None)
       else Response false NotJson;
     documentDirectory := "file:///docs/";
     served := fun url =>
       if decide (url = "https://storage/recordings/user1/b2.m4a?sig")
       then Some [Byte.x01; Byte.x02] else None;
     playable := fun b => match b with [] => false | _ => true end |}.

Definition device : Device := mkDevice ∅ None false [].

(** The view once [row7] is fetched and its audio loaded. *)
Definition ready : Component * Device := mount client "row7" initial device.

End ViewStub.

Module Scenario.

(** A table whose next default id, [row0], is already taken. *)
Definition older : Conversation.t :=
  Conversation.mk "row0" "Kickoff" "user2" "" "user2/zz.m4a" "welcome" "" 7 1 1 [] [].
Definition taken_world : World := mkWorld ∅ ∅ {[ "row0" := older ]} 0 0 9 [].

(** The run of [createRecording] on the stub request in the empty world. *)
Definition created : Outcome JsObject * World :=
  createRecording Stub.services Stub.request Stub.world.

(** A client like [ViewStub.client] whose storage serves an empty file. *)
Definition silent_client : Client :=
  mkClient (ENV_prod ViewStub.client) (getToken ViewStub.client) (fetch ViewStub.client)
    (documentDirectory ViewStub.client) (fun _ => Some []) (playable ViewStub.client).

(** A client like [ViewStub.client] whose storage serves nothing. *)
Definition offline_client : Client :=
  mkClient (ENV_prod ViewStub.client) (getToken ViewStub.client) (fetch ViewStub.client)
    (documentDirectory ViewStub.client) (fun _ => None) (playable ViewStub.client).

(** The view with [row7] fetched, before any download. *)
Definition fetched : Component * Device :=
  fetchRecordingDetails ViewStub.client "row7" initial ViewStub.device.

End Scenario.

(** ** Properties *)

(** *** Rounding *)

Lemma Math_round_bounds (x : Q) :
  (x - (1 # 2) < inject_Z (Math_round x))%Q /\ (inject_Z (Math_round x) <= x + (1 # 2))%Q.
Proof.
  unfold Math_round. split.
  - pose proof (Qlt_floor (x + (1 # 2))) as H.
    rewrite inject_Z_plus in H. change (inject_Z 1) with 1%Q in H. lra.
  - apply Qfloor_le.
Qed.

(** No integer is closer to [x] than [Math_round x]. *)
Lemma Math_round_nearest (x : Q) (z : Z) :
  (Qabs (inject_Z (Math_round x) - x) <= Qabs (inject_Z z - x))%Q.
Proof.
  destruct (Math_round_bounds x) as [Hlo Hhi].
  set (m := Math_round x) in *.
  assert (Hm : (Qabs (inject_Z m - x) <= 1 # 2)%Q).
  { apply Qabs_case; intros; lra. }
  destruct (Z_lt_le_dec z m) as [Hlt | Hge].
  - assert (Hz : (inject_Z z + 1 <= inject_Z m)%Q).
    { change 1%Q with (inject_Z 1). rewrite <- inject_Z_plus.
      rewrite <- Zle_Qle. lia. }
    apply Qle_trans with (1 # 2)%Q; [exact Hm |].
    apply Qabs_case; intros; lra.
  - destruct (Z.eq_dec z m) as [-> | Hne]; [apply Qle_refl |].
    assert (Hz : (inject_Z m + 1 <= inject_Z z)%Q).
    { change 1%Q with (inject_Z 1). rewrite <- inject_Z_plus.
      rewrite <- Zle_Qle. lia. }
    apply Qle_trans with (1 # 2)%Q; [exact Hm |].
    apply Qabs_case; intros; lra.
Qed.

(** *** Running [createRecording] *)

Section CreateRecording.

Context (sv : Services).

Lemma map_same_topic (ts : list string) : map (fun topic => topic) ts = ts.
Proof. induction ts as [| t ts IH]; simpl; [reflexivity | now rewrite IH]. Qed.

Lemma map_same_utterance (us : list Utterance.t) :
  map (fun utterance =>
         Utterance.mk (Utterance.speaker utterance) (Utterance.transcript utterance)
                      (Utterance.start utterance) (Utterance.end_ utterance)) us = us.
Proof.
  induction us as [| [sp tr st en] us IH]; simpl; [reflexivity | now rewrite IH].
Qed.

(** When every service answers and the new id is free, the handler resolves;
    the response and the world it leaves are as follows. *)
Lemma createRecording_resolves (userId : string) (b : bytes) (seconds : Q)
      (r : Transcription.t) (w : World) :
  probe sv b = Some seconds ->
  transcribe sv b = Some r ->
  storage_accepts sv (BUCKET_NAME sv) (filePath_in sv userId w) b "audio/x-m4a" = true ->
  db w !! default_id sv (inserted w) = None ->
  createRecording sv {| cr_userId := userId; cr_recordingBody := Some b |} w =
    (Resolved
       (<["summary" := JStr (nullish (Transcription.shortSummary r) "")]>
        (<["transcript" := JStr (Transcription.transcript r)]>
         (<["filePath" := JStr (filePath_in sv userId w)]>
          (scalars (written_row sv userId seconds r w))))),
     mkWorld
       (delete (tempFilePath_in sv w) (<[tempFilePath_in sv w := b]> (fs w)))
       (<[(BUCKET_NAME sv, filePath_in sv userId w) := (b, "audio/x-m4a")]> (bucket w))
       (<[default_id sv (inserted w) := written_row sv userId seconds r w]> (db w))
       (S (S (uuids w))) (S (inserted w)) (clock w)
       ([JStr "Created recording in db successfully"]
          :: [JStr "file transcribed successfully"]
          :: [JStr "durationInSeconds: "; JNum (inject_Z (Math_round seconds))]
          :: console w)).
Proof.
  intros Hprobe Htr Hup Hfresh.
  unfold createRecording, bind, uuid, writeFile, getAudioDurationInSeconds,
    console_log, unlink, transcribeFile, uploadBuffer, new_Date,
    prisma_conversation_create, ret, throw, set_fs, set_bucket; simpl.
  fold (tempFilePath_in sv w).
  rewrite !lookup_insert_eq, Hprobe; simpl.
  rewrite lookup_insert_eq, Htr; simpl.
  fold (filePath_in sv userId w). rewrite Hup; simpl.
  rewrite Hfresh.
  unfold new_row, written_row; simpl.
  destruct (Transcription.allTopics r) as [ts |],
           (Transcription.allUtterances r) as [us |]; simpl;
    rewrite ?map_same_topic, ?map_same_utterance; reflexivity.
Qed.

(** Conversely, the handler resolves only when the request carried a buffer,
    every service answered and the new id was free. *)
Lemma createRecording_resolved_inv (req : CreateRequest) (w w' : World) (o : JsObject) :
  createRecording sv req w = (Resolved o, w') ->
  exists b seconds r,
    cr_recordingBody req = Some b /\
    probe sv b = Some seconds /\
    transcribe sv b = Some r /\
    storage_accepts sv (BUCKET_NAME sv) (filePath_in sv (cr_userId req) w) b "audio/x-m4a"
      = true /\
    db w !! default_id sv (inserted w) = None.
Proof.
  destruct req as [userId [b |]]; simpl.
  2: { unfold createRecording, bind, uuid, writeFile, throw; simpl. discriminate. }
  unfold createRecording, bind, uuid, writeFile, getAudioDurationInSeconds,
    console_log, unlink, transcribeFile, uploadBuffer, new_Date,
    prisma_conversation_create, ret, throw, set_fs, set_bucket; simpl.
  fold (tempFilePath_in sv w). rewrite lookup_insert_eq.
  destruct (probe sv b) as [seconds |] eqn:Hprobe; simpl; [| discriminate].
  rewrite lookup_insert_eq; simpl.
  destruct (transcribe sv b) as [r |] eqn:Htr; simpl; [| discriminate].
  fold (filePath_in sv userId w).
  destruct (storage_accepts sv _ _ b _) eqn:Hup; simpl; [| discriminate].
  destruct (db w !! default_id sv (inserted w)) eqn:Hfresh; simpl; [discriminate |].
  intros _. exists b, seconds, r. repeat split; assumption.
Qed.

End CreateRecording.

(** *** Claims about [createRecording] *)

Section CreateRecordingClaims.

Context (sv : Services).

(** On the path on which the prober answers, the scratch file is gone once
    the handler is past [unlink], whatever happens later. *)
Lemma createRecording_probed_scratch_removed (userId : string) (b : bytes) (seconds : Q)
      (w : World) :
  probe sv b = Some seconds ->
  fs (createRecording sv {| cr_userId := userId; cr_recordingBody := Some b |} w).2
     !! tempFilePath_in sv w = None.
Proof.
  intros Hprobe.
  unfold createRecording, bind, uuid, writeFile, getAudioDurationInSeconds,
    console_log, unlink, transcribeFile, uploadBuffer, new_Date,
    prisma_conversation_create, ret, throw, set_fs, set_bucket; simpl.
  fold (tempFilePath_in sv w).
  rewrite !lookup_insert_eq, Hprobe; simpl. rewrite lookup_insert_eq; simpl.
  destruct (transcribe sv b) as [r |]; simpl; [| apply lookup_delete_eq].
  destruct (storage_accepts sv _ _ b _); simpl; [| apply lookup_delete_eq].
  destruct (db w !! _); simpl; apply lookup_delete_eq.
Qed.

(** C1 (the code departs from the claim): when the duration measurement
    fails, [createRecording] rejects before it reaches [unlink], and the
    scratch file it wrote is still on disk, holding the submitted bytes. *)
Theorem createRecording_probe_failure_leaves_scratch_file
        (userId : string) (b : bytes) (w : World) :
  probe sv b = None ->
  exists w',
    createRecording sv {| cr_userId := userId; cr_recordingBody := Some b |} w
      = (Rejected ProbeFailed, w') /\
    fs w' !! tempFilePath_in sv w = Some b.
Proof.
  intros Hprobe.
  unfold createRecording, bind, uuid, writeFile, getAudioDurationInSeconds, set_fs; simpl.
  fold (tempFilePath_in sv w).
  rewrite lookup_insert_eq, Hprobe.
  eexists; split; [reflexivity |]. simpl. apply lookup_insert_eq.
Qed.

(** C2: a successful [createRecording] stores, under the id it returns, a
    row whose title is [conversation_] followed by the current date string
    when the transcription has no title, and the transcription's title
    unchanged when it has one; the response carries the same title. *)
Theorem createRecording_title (req : CreateRequest) (w w' : World) (o : JsObject) :
  createRecording sv req w = (Resolved o, w') ->
  exists b r row,
    cr_recordingBody req = Some b /\
    transcribe sv b = Some r /\
    o !! "id" = Some (JStr (Conversation.id row)) /\
    db w' !! Conversation.id row = Some row /\
    o !! "title" = Some (JStr (Conversation.title row)) /\
    (Transcription.title r = None ->
     Conversation.title row = "conversation_" ++ toLocaleDateString sv (clock w')) /\
    (forall t, Transcription.title r = Some t -> Conversation.title row = t).
Proof.
  intros Hrun.
  destruct (createRecording_resolved_inv sv req w w' o Hrun)
    as (b & seconds & r & Hb & Hprobe & Htr & Hup & Hfresh).
  destruct req as [userId body]; simpl in *; subst body.
  rewrite (createRecording_resolves sv userId b seconds r w Hprobe Htr Hup Hfresh) in Hrun.
  injection Hrun as <- <-.
  exists b, r, (written_row sv userId seconds r w).
  repeat split; try assumption; try reflexivity.
  - simpl. apply lookup_insert_eq.
  - simpl. intros ->. reflexivity.
  - simpl. intros t ->. reflexivity.
Qed.

(** C3: the [duration] of the object a successful [createRecording] returns
    is the probed length of the submitted audio rounded by [Math.round], and
    no whole number of seconds is nearer to the probed length. *)
Theorem createRecording_duration (req : CreateRequest) (w w' : World) (o : JsObject) :
  createRecording sv req w = (Resolved o, w') ->
  exists b seconds,
    cr_recordingBody req = Some b /\
    probe sv b = Some seconds /\
    o !! "duration" = Some (JNum (inject_Z (Math_round seconds))) /\
    forall z : Z,
      (Qabs (inject_Z (Math_round seconds) - seconds) <= Qabs (inject_Z z - seconds))%Q.
Proof.
  intros Hrun.
  destruct (createRecording_resolved_inv sv req w w' o Hrun)
    as (b & seconds & r & Hb & Hprobe & Htr & Hup & Hfresh).
  destruct req as [userId body]; simpl in *; subst body.
  rewrite (createRecording_resolves sv userId b seconds r w Hprobe Htr Hup Hfresh) in Hrun.
  injection Hrun as <- <-.
  exists b, seconds. repeat split; try assumption; try reflexivity.
  apply Math_round_nearest.
Qed.

(** C10: when the transcription carries no topic list (respectively no
    utterance list), and every service answers, [createRecording] still
    resolves, and the row it writes has no Topic (respectively no Utterance)
    children. *)
Theorem createRecording_absent_lists (userId : string) (b : bytes) (seconds : Q)
        (r : Transcription.t) (w : World) :
  probe sv b = Some seconds ->
  transcribe sv b = Some r ->
  storage_accepts sv (BUCKET_NAME sv) (filePath_in sv userId w) b "audio/x-m4a" = true ->
  db w !! default_id sv (inserted w) = None ->
  exists o w' row,
    createRecording sv {| cr_userId := userId; cr_recordingBody := Some b |} w
      = (Resolved o, w') /\
    o !! "id" = Some (JStr (Conversation.id row)) /\
    db w' !! Conversation.id row = Some row /\
    (Transcription.allTopics r = None -> Conversation.topics row = []) /\
    (Transcription.allUtterances r = None -> Conversation.utterances row = []).
Proof.
  intros Hprobe Htr Hup Hfresh.
  rewrite (createRecording_resolves sv userId b seconds r w Hprobe Htr Hup Hfresh).
  do 2 eexists. exists (written_row sv userId seconds r w).
  split; [reflexivity |]. split; [reflexivity |]. split; [apply lookup_insert_eq |].
  split; simpl; intros ->; reflexivity.
Qed.

End CreateRecordingClaims.

Lemma createRecording_probe_failure_leaves_scratch_file_witness :
  probe Stub.services [] = None /\
  exists w',
    createRecording Stub.services Stub.unreadable_request Stub.world
      = (Rejected ProbeFailed, w') /\
    fs w' !! "/tmp/a1.m4a" = Some [].
Proof.
  split; [reflexivity |].
  apply (createRecording_probe_failure_leaves_scratch_file
           Stub.services "user1" [] Stub.world).
  reflexivity.
Defined.

Lemma createRecording_title_witness :
  exists b r row,
    cr_recordingBody Stub.untitled_request = Some b /\
    transcribe Stub.services b = Some r /\
    Stub.response (createRecording Stub.services Stub.untitled_request Stub.world) !! "id"
      = Some (JStr (Conversation.id row)) /\
    db (createRecording Stub.services Stub.untitled_request Stub.world).2
       !! Conversation.id row = Some row /\
    Stub.response (createRecording Stub.services Stub.untitled_request Stub.world) !! "title"
      = Some (JStr (Conversation.title row)) /\
    (Transcription.title r = None -> Conversation.title row = "conversation_11/2/2026") /\
    (forall t, Transcription.title r = Some t -> Conversation.title row = t).
Proof.
  apply (createRecording_title Stub.services Stub.untitled_request Stub.world).
  vm_compute. reflexivity.
Defined.

Lemma createRecording_duration_witness :
  exists b seconds,
    cr_recordingBody Stub.request = Some b /\
    probe Stub.services b = Some seconds /\
    Stub.response (createRecording Stub.services Stub.request Stub.world) !! "duration"
      = Some (JNum (inject_Z (Math_round seconds))) /\
    forall z : Z,
      (Qabs (inject_Z (Math_round seconds) - seconds) <= Qabs (inject_Z z - seconds))%Q.
Proof.
  apply (createRecording_duration Stub.services Stub.request Stub.world
           (createRecording Stub.services Stub.request Stub.world).2).
  vm_compute. reflexivity.
Defined.

Lemma createRecording_absent_lists_witness :
  exists o w' row,
    createRecording Stub.services Stub.untitled_request Stub.world = (Resolved o, w') /\
    o !! "id" = Some (JStr (Conversation.id row)) /\
    db w' !! Conversation.id row = Some row /\
    (Transcription.allTopics Stub.bare = None -> Conversation.topics row = []) /\
    (Transcription.allUtterances Stub.bare = None -> Conversation.utterances row = []).
Proof.
  apply (createRecording_absent_lists Stub.services "user1" Stub.untitled_audio (85 # 2)
           Stub.bare Stub.world); reflexivity.
Defined.

(** *** Claims about the other handlers *)

Section ReadUpdateDelete.

Context (sv : Services).

(** Asking for both relations yields every column and both collections. *)
Lemma prisma_include_both (c : Conversation.t) :
  prisma_include [("topics", true); ("utterances", true)] c = scalars c ∪ relations c.
Proof. reflexivity. Qed.

Lemma getRecording_found (id : string) (w : World) (row : Conversation.t) :
  db w !! id = Some row ->
  getRecording sv {| gr_recordingId := id |} w =
    match presign sv (BUCKET_NAME sv) (Conversation.file_path row) (clock w) with
    | Some url =>
        (Resolved (Some (<["recordingUrl" := JStr url]> (scalars row ∪ relations row))), w)
    | None => (Rejected StorageFailed, w)
    end.
Proof.
  intros Hrow.
  unfold getRecording, bind, prisma_conversation_findUnique; simpl.
  rewrite Hrow; simpl.
  change (prisma_include _ row !! "file_path") with (Some (JStr (Conversation.file_path row))).
  unfold bind, generatePresignedUrl, ret.
  destruct (presign sv _ _ _); reflexivity.
Qed.

(** C4: [getRecording] on an id with no row resolves to [null] and leaves
    the world as it was; on an id with a row, once the storage client has
    minted a URL for the row's path, it resolves to the row's columns, its
    topics and its utterances, with that URL under [recordingUrl]. *)
Theorem getRecording_absent_or_composed (id : string) (w : World) :
  (db w !! id = None ->
   getRecording sv {| gr_recordingId := id |} w = (Resolved None, w)) /\
  (forall row url,
     db w !! id = Some row ->
     presign sv (BUCKET_NAME sv) (Conversation.file_path row) (clock w) = Some url ->
     exists o,
       getRecording sv {| gr_recordingId := id |} w = (Resolved (Some o), w) /\
       o = <["recordingUrl" := JStr url]> (scalars row ∪ relations row) /\
       o !! "recordingUrl" = Some (JStr url) /\
       o !! "topics" = Some (JArr (topic_object <$> Conversation.topics row)) /\
       o !! "utterances" = Some (JArr (utterance_object <$> Conversation.utterances row))).
Proof.
  split.
  - intros Hnone.
    unfold getRecording, bind, prisma_conversation_findUnique; simpl.
    rewrite Hnone. reflexivity.
  - intros row url Hrow Hurl.
    rewrite (getRecording_found id w row Hrow), Hurl.
    eexists. split; [reflexivity |]. repeat split.
Qed.

(** The fields a list response asks for. *)
Lemma prisma_select_list_fields (c : Conversation.t) :
  dom (prisma_select
         [("id", true); ("title", true); ("topics", true);
          ("createdAt", true); ("updatedAt", true); ("duration", true)] c)
  = ({[ "id"; "title"; "topics"; "createdAt"; "updatedAt"; "duration" ]} : gset string).
Proof. reflexivity. Qed.

(** C6: [listRecordings] resolves, leaves the world as it was, and every
    element of its response has exactly the keys id, title, topics,
    createdAt, updatedAt and duration; transcript, summary and utterances
    are not among them. *)
Theorem listRecordings_fields (req : ListRequest) (w : World) :
  exists l,
    listRecordings req w = (Resolved l, w) /\
    forall o, o ∈ l ->
      dom o = ({[ "id"; "title"; "topics"; "createdAt"; "updatedAt"; "duration" ]}
                 : gset string) /\
      o !! "transcript" = None /\ o !! "summary" = None /\ o !! "utterances" = None.
Proof.
  eexists. split; [reflexivity |].
  intros o Ho. apply list_elem_of_fmap in Ho as (c & -> & _).
  repeat split.
Qed.

(** C7: [deleteRecording] on an id with no row rejects with the ORM's
    record-not-found error, which the handler does not catch, and the world
    (database included) is as it was. *)
Theorem deleteRecording_absent_propagates (req : DeleteRequest) (w : World) :
  db w !! dr_recordingId req = None ->
  deleteRecording req w = (Rejected P2025, w).
Proof.
  intros Hnone.
  unfold deleteRecording, bind, prisma_conversation_delete.
  rewrite Hnone. reflexivity.
Qed.

(** C5: [updateRecording] on a stored row writes the supplied fields and
    nothing else: with only a title supplied the transcript stays, with only
    a transcript supplied the title stays, every other column and both child
    collections stay, and so does every other row. *)
Theorem updateRecording_frame (req : UpdateRequest) (w : World) (row : Conversation.t) :
  db w !! ur_recordingId req = Some row ->
  exists o w' row',
    updateRecording req w = (Resolved o, w') /\
    db w' !! ur_recordingId req = Some row' /\
    (ur_transcript req = None ->
     Conversation.transcript row' = Conversation.transcript row) /\
    (ur_title req = None -> Conversation.title row' = Conversation.title row) /\
    (forall t, ur_title req = Some t -> Conversation.title row' = t) /\
    (forall t, ur_transcript req = Some t -> Conversation.transcript row' = t) /\
    (Conversation.id row' = Conversation.id row /\
     Conversation.userId row' = Conversation.userId row /\
     Conversation.recording_url row' = Conversation.recording_url row /\
     Conversation.file_path row' = Conversation.file_path row /\
     Conversation.summary row' = Conversation.summary row /\
     Conversation.duration row' = Conversation.duration row /\
     Conversation.createdAt row' = Conversation.createdAt row /\
     Conversation.updatedAt row' = Conversation.updatedAt row /\
     Conversation.topics row' = Conversation.topics row /\
     Conversation.utterances row' = Conversation.utterances row) /\
    (forall j, j <> ur_recordingId req -> db w' !! j = db w !! j) /\
    fs w' = fs w /\ bucket w' = bucket w.
Proof.
  intros Hrow.
  unfold updateRecording, bind, prisma_conversation_update, console_log, ret, set_db.
  rewrite Hrow.
  do 2 eexists.
  exists (updated_row {| UpdateData.title := ur_title req;
                         UpdateData.transcript := ur_transcript req |} row).
  split; [reflexivity |]. simpl.
  split; [apply lookup_insert_eq |].
  split; [intros ->; reflexivity |].
  split; [intros ->; reflexivity |].
  split; [intros t ->; reflexivity |].
  split; [intros t ->; reflexivity |].
  split; [repeat split |].
  split; [| split; reflexivity].
  intros j Hj. apply lookup_insert_ne. congruence.
Qed.

(** X12: on an id with no row, [updateRecording] rejects with the ORM's
    record-not-found error and changes nothing. *)
Lemma updateRecording_absent (req : UpdateRequest) (w : World) :
  db w !! ur_recordingId req = None ->
  updateRecording req w = (Rejected P2025, w).
Proof.
  intros Hnone.
  unfold updateRecording, bind, prisma_conversation_update.
  rewrite Hnone. reflexivity.
Qed.

(** C9: the row a successful [createRecording] writes has the empty string
    in [recording_url], and no other row changes; the [recordingUrl] of a
    [getRecording] response is the URL minted for the row's [file_path] at
    read time, whatever the row's [recording_url] column holds. *)
Theorem recording_url_blank_and_unread :
  (forall req w w' o,
     createRecording sv req w = (Resolved o, w') ->
     exists row,
       o !! "id" = Some (JStr (Conversation.id row)) /\
       db w' !! Conversation.id row = Some row /\
       Conversation.recording_url row = "" /\
       forall j, j <> Conversation.id row -> db w' !! j = db w !! j) /\
  (forall id w row url s,
     db w !! id = Some row ->
     presign sv (BUCKET_NAME sv) (Conversation.file_path row) (clock w) = Some url ->
     exists o w',
       getRecording sv {| gr_recordingId := id |}
                    (set_db (<[id := with_recording_url s row]> (db w)) w)
         = (Resolved (Some o), w') /\
       o !! "recordingUrl" = Some (JStr url) /\
       o !! "recording_url" = Some (JStr s)).
Proof.
  split.
  - intros req w w' o Hrun.
    destruct (createRecording_resolved_inv sv req w w' o Hrun)
      as (b & seconds & r & Hb & Hprobe & Htr & Hup & Hfresh).
    destruct req as [userId body]; simpl in *; subst body.
    rewrite (createRecording_resolves sv userId b seconds r w Hprobe Htr Hup Hfresh) in Hrun.
    injection Hrun as <- <-.
    exists (written_row sv userId seconds r w). simpl.
    split; [reflexivity |]. split; [apply lookup_insert_eq |]. split; [reflexivity |].
    intros j Hj. apply lookup_insert_ne. congruence.
  - intros id w row url s Hrow Hurl.
    rewrite (getRecording_found id _ (with_recording_url s row)).
    + simpl. rewrite Hurl. do 2 eexists. repeat split.
    + simpl. apply lookup_insert_eq.
Qed.

(** On an id with a row, [deleteRecording] resolves and the row is gone. *)
Lemma deleteRecording_present (req : DeleteRequest) (w : World) (row : Conversation.t) :
  db w !! dr_recordingId req = Some row ->
  exists w',
    deleteRecording req w = (Resolved (scalars row), w') /\
    db w' !! dr_recordingId req = None.
Proof.
  intros Hrow.
  unfold deleteRecording, bind, prisma_conversation_delete, console_log, ret, set_db.
  rewrite Hrow. eexists; split; [reflexivity |]. simpl. apply lookup_delete_eq.
Qed.

End ReadUpdateDelete.

Lemma getRecording_absent_or_composed_witness :
  getRecording Stub.services {| gr_recordingId := "missing" |} Stub.world1
    = (Resolved None, Stub.world1) /\
  exists o,
    getRecording Stub.services {| gr_recordingId := "row7" |} Stub.world1
      = (Resolved (Some o), Stub.world1) /\
    o !! "recordingUrl" = Some (JStr "https://storage/recordings/user1/b2.m4a?sig") /\
    o !! "topics" = Some (JArr [topic_object "greeting"]) /\
    o !! "utterances" = Some (JArr [utterance_object (Utterance.mk "A" "hello" 0 1)]).
Proof.
  split.
  - apply (getRecording_absent_or_composed Stub.services "missing" Stub.world1).
    reflexivity.
  - destruct (getRecording_absent_or_composed Stub.services "row7" Stub.world1) as [_ H].
    destruct (H Stub.stored "https://storage/recordings/user1/b2.m4a?sig")
      as (o & Hrun & _ & Hurl & Htopics & Hutts); [reflexivity | reflexivity |].
    exists o. repeat split; assumption.
Defined.

Lemma updateRecording_frame_witness :
  exists o w' row',
    updateRecording
      {| ur_recordingId := "row7"; ur_title := Some "Retro"; ur_transcript := None |}
      Stub.world1 = (Resolved o, w') /\
    db w' !! "row7" = Some row' /\
    Conversation.transcript row' = "hello" /\
    Conversation.title row' = "Retro".
Proof.
  destruct (updateRecording_frame
              {| ur_recordingId := "row7"; ur_title := Some "Retro"; ur_transcript := None |}
              Stub.world1 Stub.stored)
    as (o & w' & row' & Hrun & Hrow & Htr & _ & Htitle & _); [reflexivity |].
  exists o, w', row'.
  split; [exact Hrun |]. split; [exact Hrow |].
  split; [apply Htr; reflexivity | apply Htitle; reflexivity].
Defined.

Lemma listRecordings_fields_witness :
  exists l,
    listRecordings {| lr_userId := "user1" |} Stub.world1 = (Resolved l, Stub.world1) /\
    forall o, o ∈ l ->
      dom o = ({[ "id"; "title"; "topics"; "createdAt"; "updatedAt"; "duration" ]}
                 : gset string) /\
      o !! "transcript" = None /\ o !! "summary" = None /\ o !! "utterances" = None.
Proof.
  apply (listRecordings_fields {| lr_userId := "user1" |} Stub.world1).
Defined.

Lemma deleteRecording_absent_propagates_witness :
  deleteRecording {| dr_recordingId := "missing" |} Stub.world1
    = (Rejected P2025, Stub.world1).
Proof.
  apply (deleteRecording_absent_propagates {| dr_recordingId := "missing" |} Stub.world1).
  reflexivity.
Defined.

Lemma recording_url_blank_and_unread_witness :
  (exists row,
     Stub.response (createRecording Stub.services Stub.request Stub.world) !! "id"
       = Some (JStr (Conversation.id row)) /\
     db (createRecording Stub.services Stub.request Stub.world).2 !! Conversation.id row
       = Some row /\
     Conversation.recording_url row = "") /\
  (exists o w',
     getRecording Stub.services {| gr_recordingId := "row7" |}
       (set_db (<["row7" := with_recording_url "https://stale" Stub.stored]> (db Stub.world1))
               Stub.world1)
       = (Resolved (Some o), w') /\
     o !! "recordingUrl" = Some (JStr "https://storage/recordings/user1/b2.m4a?sig") /\
     o !! "recording_url" = Some (JStr "https://stale")).
Proof.
  destruct (recording_url_blank_and_unread Stub.services) as [Hcreate Hget].
  split.
  - destruct (Hcreate Stub.request Stub.world
                (createRecording Stub.services Stub.request Stub.world).2
                (Stub.response (createRecording Stub.services Stub.request Stub.world)))
      as (row & Hid & Hrow & Hblank & _); [vm_compute; reflexivity |].
    exists row. repeat split; assumption.
  - apply (Hget "row7" Stub.world1 Stub.stored); reflexivity.
Defined.

(** *** The playback-status callback *)

(** C8: on a loaded status the callback sets the observed position and
    duration from the status (a missing duration reads as zero); when the
    status says playback just finished the playing flag is cleared, and
    otherwise it is left as it was. *)
Theorem onPlaybackStatusUpdate_loaded (status : AVPlaybackStatus) (st : PlayerState) :
  isLoaded status = true ->
  let st' := onPlaybackStatusUpdate status st in
  Some (position st') = positionMillis status /\
  duration st' = default 0%Z (durationMillis status) /\
  (didJustFinish status = true -> isPlaying st' = false) /\
  (didJustFinish status = false -> isPlaying st' = isPlaying st) /\
  isLoadingAudio st' = isLoadingAudio st.
Proof.
  destruct status as [err | pos dur playing fin]; [discriminate |].
  intros _. simpl.
  assert (Hdur : or_zero dur = default 0%Z dur).
  { destruct dur as [d |]; simpl; [| reflexivity].
    destruct (Z.eqb_spec d 0) as [-> | _]; reflexivity. }
  destruct fin; simpl; rewrite Hdur; repeat split; congruence.
Qed.

(** A status that is not loaded leaves the audio state as it was. *)
Lemma onPlaybackStatusUpdate_not_loaded (err : option string) (st : PlayerState) :
  onPlaybackStatusUpdate (NotLoaded err) st = st.
Proof. reflexivity. Qed.

Lemma onPlaybackStatusUpdate_loaded_witness :
  let st' := onPlaybackStatusUpdate (Loaded 42000 (Some 42000%Z) true true)
                                    (mkPlayer true false 41500 42000) in
  Some (position st') = Some 42000%Z /\
  duration st' = 42000%Z /\
  (true = true -> isPlaying st' = false) /\
  (true = false -> isPlaying st' = true) /\
  isLoadingAudio st' = false.
Proof.
  apply (onPlaybackStatusUpdate_loaded (Loaded 42000 (Some 42000%Z) true true)
           (mkPlayer true false 41500 42000)).
  reflexivity.
Defined.

(** ** Further properties of the handlers *)

Section CreateRecordingPaths.

Context (sv : Services).

(** Unfolds a run of [createRecording] down to the calls it awaits. *)
Ltac run_create :=
  unfold createRecording, bind, uuid, writeFile, getAudioDurationInSeconds,
    console_log, unlink, transcribeFile, uploadBuffer, new_Date,
    prisma_conversation_create, ret, throw, set_fs, set_bucket; simpl;
  fold (tempFilePath_in sv);
  rewrite ?lookup_insert_eq; simpl.

(** X1: a request without a body is rejected with a type error before
    anything is written: disk, bucket, table and console are as they were. *)
Theorem createRecording_without_body (userId : string) (w : World) :
  exists w',
    createRecording sv {| cr_userId := userId; cr_recordingBody := None |} w
      = (Rejected TypeError, w') /\
    fs w' = fs w /\ bucket w' = bucket w /\ db w' = db w /\ console w' = console w.
Proof.
  unfold createRecording, bind, uuid, writeFile, throw; simpl.
  eexists. split; [reflexivity |]. repeat split.
Qed.

(** X2: a run of [createRecording] that rejects leaves the table as it was,
    and it rejects for one of five reasons: a missing body, a failed probe, a
    failed transcription, a refused upload or a taken id. It never fails on
    its own scratch file. *)
Theorem createRecording_rejected (req : CreateRequest) (w w' : World) (e : Rejection) :
  createRecording sv req w = (Rejected e, w') ->
  db w' = db w /\
  (e = TypeError \/ e = ProbeFailed \/ e = TranscriptionFailed \/
   e = StorageFailed \/ e = P2002).
Proof.
  destruct req as [userId [b |]].
  2: { unfold createRecording, bind, uuid, writeFile, throw; simpl.
       intros [= <- <-]. split; [reflexivity | tauto]. }
  run_create.
  destruct (probe sv b) as [seconds |]; simpl.
  2: { intros [= <- <-]. split; [reflexivity | tauto]. }
  rewrite lookup_insert_eq; simpl.
  destruct (transcribe sv b) as [r |]; simpl.
  2: { intros [= <- <-]. split; [reflexivity | tauto]. }
  destruct (storage_accepts sv _ _ b _); simpl.
  2: { intros [= <- <-]. split; [reflexivity | tauto]. }
  destruct (db w !! default_id sv (inserted w)); simpl.
  - intros [= <- <-]. split; [reflexivity | tauto].
  - discriminate.
Qed.

(** X3: when the insert is rejected after the upload went through, the
    uploaded audio stays in the bucket while the table has no row for it. *)
Theorem createRecording_insert_rejected_keeps_upload
        (userId : string) (b : bytes) (seconds : Q) (r : Transcription.t)
        (w : World) (taken : Conversation.t) :
  probe sv b = Some seconds ->
  transcribe sv b = Some r ->
  storage_accepts sv (BUCKET_NAME sv) (filePath_in sv userId w) b "audio/x-m4a" = true ->
  db w !! default_id sv (inserted w) = Some taken ->
  exists w',
    createRecording sv {| cr_userId := userId; cr_recordingBody := Some b |} w
      = (Rejected P2002, w') /\
    bucket w' !! (BUCKET_NAME sv, filePath_in sv userId w) = Some (b, "audio/x-m4a") /\
    db w' = db w.
Proof.
  intros Hprobe Htr Hup Htaken.
  run_create. rewrite Hprobe; simpl. rewrite lookup_insert_eq, Htr; simpl.
  fold (filePath_in sv userId w). rewrite Hup; simpl. rewrite Htaken.
  eexists. split; [reflexivity |]. simpl. split; [apply lookup_insert_eq | reflexivity].
Qed.

(** X4: after a successful run the bucket holds the submitted bytes, typed
    [audio/x-m4a], under the key the response gives as [filePath] and the
    row as [file_path]; no other object of the bucket changes. *)
Theorem createRecording_uploads_body (req : CreateRequest) (w w' : World) (o : JsObject) :
  createRecording sv req w = (Resolved o, w') ->
  exists b path,
    cr_recordingBody req = Some b /\
    path = filePath_in sv (cr_userId req) w /\
    o !! "filePath" = Some (JStr path) /\
    o !! "file_path" = Some (JStr path) /\
    bucket w' !! (BUCKET_NAME sv, path) = Some (b, "audio/x-m4a") /\
    forall k, k <> (BUCKET_NAME sv, path) -> bucket w' !! k = bucket w !! k.
Proof.
  intros Hrun.
  destruct (createRecording_resolved_inv sv req w w' o Hrun)
    as (b & seconds & r & Hb & Hprobe & Htr & Hup & Hfresh).
  destruct req as [userId body]; simpl in *; subst body.
  rewrite (createRecording_resolves sv userId b seconds r w Hprobe Htr Hup Hfresh) in Hrun.
  injection Hrun as <- <-.
  exists b, (filePath_in sv userId w). simpl.
  split; [reflexivity |]. split; [reflexivity |].
  split; [reflexivity |]. split; [reflexivity |].
  split; [apply lookup_insert_eq |].
  intros k Hk. apply lookup_insert_ne. congruence.
Qed.

(** X5: a successful run leaves the disk as it found it, except that nothing
    is at the scratch path; if nothing was there before, the disk is
    unchanged. *)
Theorem createRecording_disk (req : CreateRequest) (w w' : World) (o : JsObject) :
  createRecording sv req w = (Resolved o, w') ->
  fs w' = delete (tempFilePath_in sv w) (fs w) /\
  (fs w !! tempFilePath_in sv w = None -> fs w' = fs w).
Proof.
  intros Hrun.
  destruct (createRecording_resolved_inv sv req w w' o Hrun)
    as (b & seconds & r & Hb & Hprobe & Htr & Hup & Hfresh).
  destruct req as [userId body]; simpl in *; subst body.
  rewrite (createRecording_resolves sv userId b seconds r w Hprobe Htr Hup Hfresh) in Hrun.
  injection Hrun as <- <-. simpl.
  rewrite delete_insert_eq. split; [reflexivity |].
  intros Hnone. apply delete_id. exact Hnone.
Qed.

End CreateRecordingPaths.

Section Compositions.

Context (sv : Services).

(** X6: what a successful [createRecording] stored can be read back: under
    the id of its response, [getRecording] finds the transcription's topics
    and utterances (none where the list was absent), the transcript, the same
    title and duration as the response, and a URL minted for the very key
    the audio was uploaded to. *)
Theorem create_then_get (req : CreateRequest) (w w' : World) (o : JsObject) (url : string) :
  createRecording sv req w = (Resolved o, w') ->
  presign sv (BUCKET_NAME sv) (filePath_in sv (cr_userId req) w) (clock w') = Some url ->
  exists id b r g,
    o !! "id" = Some (JStr id) /\
    cr_recordingBody req = Some b /\
    transcribe sv b = Some r /\
    getRecording sv {| gr_recordingId := id |} w' = (Resolved (Some g), w') /\
    g !! "recordingUrl" = Some (JStr url) /\
    bucket w' !! (BUCKET_NAME sv, filePath_in sv (cr_userId req) w)
      = Some (b, "audio/x-m4a") /\
    g !! "topics"
      = Some (JArr (topic_object <$> default [] (Transcription.allTopics r))) /\
    g !! "utterances"
      = Some (JArr (utterance_object <$> default [] (Transcription.allUtterances r))) /\
    g !! "transcript" = Some (JStr (Transcription.transcript r)) /\
    g !! "title" = o !! "title" /\
    g !! "duration" = o !! "duration".
Proof.
  intros Hrun Hurl.
  destruct (createRecording_resolved_inv sv req w w' o Hrun)
    as (b & seconds & r & Hb & Hprobe & Htr & Hup & Hfresh).
  destruct req as [userId body]; simpl in *; subst body.
  rewrite (createRecording_resolves sv userId b seconds r w Hprobe Htr Hup Hfresh) in Hrun.
  injection Hrun as <- <-. simpl in Hurl.
  exists (default_id sv (inserted w)), b, r.
  eexists.
  split; [reflexivity |]. split; [reflexivity |]. split; [exact Htr |].
  split.
  { rewrite (getRecording_found sv _ _ (written_row sv userId seconds r w)).
    - simpl. rewrite Hurl. reflexivity.
    - simpl. apply lookup_insert_eq. }
  split; [reflexivity |].
  split; [simpl; apply lookup_insert_eq |].
  repeat split.
Qed.

(** The response list of [listRecordings], element by element. *)
Lemma listed_iff (userId : string) (w : World) (o : JsObject) :
  o ∈ (prisma_select list_select <$>
         filter (fun c => Conversation.userId c = userId) (snd <$> map_to_list (db w)))
  <->
  exists id c,
    db w !! id = Some c /\ Conversation.userId c = userId /\
    o = prisma_select list_select c.
Proof.
  split.
  - intros Ho.
    apply list_elem_of_fmap in Ho as (c & -> & Hc).
    apply list_elem_of_filter in Hc as [Hu Hc].
    apply list_elem_of_fmap in Hc as ([id c'] & -> & Hin).
    apply elem_of_map_to_list in Hin.
    exists id, c'. simpl in *. repeat split; assumption.
  - intros (id & c & Hrow & Hu & ->).
    apply list_elem_of_fmap. exists c. split; [reflexivity |].
    apply list_elem_of_filter. split; [exact Hu |].
    apply list_elem_of_fmap. exists (id, c). split; [reflexivity |].
    apply elem_of_map_to_list. exact Hrow.
Qed.

(** X7: [listRecordings] answers with exactly the projections of the rows
    that belong to the asking user: every element comes from such a row, and
    every such row is there. *)
Theorem listRecordings_exactly_own (userId : string) (w : World) (o : JsObject) :
  (exists l,
     listRecordings {| lr_userId := userId |} w = (Resolved l, w) /\ o ∈ l)
  <->
  (exists id c,
     db w !! id = Some c /\ Conversation.userId c = userId /\
     o = prisma_select list_select c).
Proof.
  rewrite <- listed_iff.
  unfold listRecordings, bind, prisma_conversation_findMany, ret; simpl.
  split.
  - intros (l & [= <-] & Ho). exact Ho.
  - intros Ho. eexists. split; [reflexivity | exact Ho].
Qed.

(** X8: a recording just created shows up in its user's list, under the id,
    title and duration of the create response. *)
Theorem create_then_list (req : CreateRequest) (w w' : World) (o : JsObject) :
  createRecording sv req w = (Resolved o, w') ->
  exists l item,
    listRecordings {| lr_userId := cr_userId req |} w' = (Resolved l, w') /\
    item ∈ l /\
    is_Some (o !! "id") /\
    item !! "id" = o !! "id" /\
    item !! "title" = o !! "title" /\
    item !! "duration" = o !! "duration".
Proof.
  intros Hrun.
  destruct (createRecording_resolved_inv sv req w w' o Hrun)
    as (b & seconds & r & Hb & Hprobe & Htr & Hup & Hfresh).
  destruct req as [userId body]; simpl in *; subst body.
  rewrite (createRecording_resolves sv userId b seconds r w Hprobe Htr Hup Hfresh) in Hrun.
  injection Hrun as <- <-.
  set (w' := mkWorld _ _ _ _ _ _ _).
  eexists. exists (prisma_select list_select (written_row sv userId seconds r w)).
  split; [reflexivity |].
  split.
  { apply listed_iff.
    exists (default_id sv (inserted w)), (written_row sv userId seconds r w).
    split; [apply lookup_insert_eq |]. split; reflexivity. }
  split; [eexists; reflexivity |]. repeat split.
Qed.

End Compositions.

Section DeleteAndUpdate.

Context (sv : Services).

(** X9: deleting a stored recording resolves to its columns and removes the
    row with its children, so that a later [getRecording] finds nothing;
    every other row stays, and so does all stored audio: the bucket is
    exactly as before. *)
Theorem deleteRecording_removes_row_keeps_audio
        (req : DeleteRequest) (w : World) (row : Conversation.t) :
  db w !! dr_recordingId req = Some row ->
  exists w',
    deleteRecording req w = (Resolved (scalars row), w') /\
    (forall j, j <> dr_recordingId req -> db w' !! j = db w !! j) /\
    bucket w' = bucket w /\
    getRecording sv {| gr_recordingId := dr_recordingId req |} w' = (Resolved None, w').
Proof.
  intros Hrow.
  unfold deleteRecording, bind, prisma_conversation_delete, console_log, ret, set_db.
  rewrite Hrow. eexists. split; [reflexivity |].
  split; [intros j Hj; simpl; apply lookup_delete_ne; congruence |].
  split; [reflexivity |].
  unfold getRecording, bind, prisma_conversation_findUnique; simpl.
  rewrite lookup_delete_eq. reflexivity.
Qed.

(** X10: deleting the same recording a second time is rejected with the
    record-not-found error. *)
Theorem deleteRecording_twice (req : DeleteRequest) (w : World) (row : Conversation.t) :
  db w !! dr_recordingId req = Some row ->
  (bind (deleteRecording req) (fun _ => deleteRecording req) w).1 = Rejected P2025.
Proof.
  intros Hrow.
  unfold deleteRecording, bind, prisma_conversation_delete, console_log, ret, set_db.
  rewrite Hrow. simpl. rewrite lookup_delete_eq. reflexivity.
Qed.

(** X11: what [updateRecording] wrote is what [getRecording] reads: the new
    title and transcript where supplied, the old ones otherwise, the same
    topics and utterances, and a URL for the same stored audio. *)
Theorem update_then_get (req : UpdateRequest) (w : World) (row : Conversation.t)
        (url : string) :
  db w !! ur_recordingId req = Some row ->
  presign sv (BUCKET_NAME sv) (Conversation.file_path row) (clock w) = Some url ->
  exists o w' g,
    updateRecording req w = (Resolved o, w') /\
    getRecording sv {| gr_recordingId := ur_recordingId req |} w'
      = (Resolved (Some g), w') /\
    g !! "title" = Some (JStr (nullish (ur_title req) (Conversation.title row))) /\
    g !! "transcript"
      = Some (JStr (nullish (ur_transcript req) (Conversation.transcript row))) /\
    g !! "topics" = Some (JArr (topic_object <$> Conversation.topics row)) /\
    g !! "utterances" = Some (JArr (utterance_object <$> Conversation.utterances row)) /\
    g !! "recordingUrl" = Some (JStr url).
Proof.
  intros Hrow Hurl.
  unfold updateRecording, bind, prisma_conversation_update, console_log, ret, set_db.
  rewrite Hrow. do 3 eexists. split; [reflexivity |].
  split.
  { erewrite getRecording_found; [| simpl; apply lookup_insert_eq].
    simpl. rewrite Hurl. reflexivity. }
  repeat split.
Qed.

(** X13: an update that supplies neither a title nor a transcript leaves the
    table exactly as it was. *)
Theorem updateRecording_nothing_supplied (id : string) (w : World) (row : Conversation.t) :
  db w !! id = Some row ->
  exists o w',
    updateRecording {| ur_recordingId := id; ur_title := None; ur_transcript := None |} w
      = (Resolved o, w') /\
    db w' = db w.
Proof.
  intros Hrow.
  unfold updateRecording, bind, prisma_conversation_update, console_log, ret, set_db.
  simpl. rewrite Hrow. do 2 eexists. split; [reflexivity |]. simpl.
  apply insert_id. rewrite Hrow. destruct row; reflexivity.
Qed.

(** X14: the handlers keep every row under its own id: whatever requests are
    served, and whether they resolve or reject, a table keyed by id stays
    keyed by id. *)
Theorem handlers_keep_rows_keyed
        (w : World) (creq : CreateRequest) (ureq : UpdateRequest) (dreq : DeleteRequest) :
  keyed w ->
  keyed (createRecording sv creq w).2 /\
  keyed (updateRecording ureq w).2 /\
  keyed (deleteRecording dreq w).2.
Proof.
  intros Hk. split; [| split].
  - destruct creq as [userId [b |]].
    2: { unfold createRecording, bind, uuid, writeFile, throw; simpl. exact Hk. }
    unfold createRecording, bind, uuid, writeFile, getAudioDurationInSeconds,
      console_log, unlink, transcribeFile, uploadBuffer, new_Date,
      prisma_conversation_create, ret, throw, set_fs, set_bucket; simpl.
    rewrite lookup_insert_eq.
    destruct (probe sv b) as [seconds |]; simpl; [| exact Hk].
    rewrite lookup_insert_eq; simpl.
    destruct (transcribe sv b) as [r |]; simpl; [| exact Hk].
    destruct (storage_accepts sv _ _ b _); simpl; [| exact Hk].
    destruct (db w !! default_id sv (inserted w)) eqn:Hfresh; simpl; [exact Hk |].
    intros id c. unfold keyed in Hk. simpl.
    destruct (decide (default_id sv (inserted w) = id)) as [<- | Hne].
    + rewrite lookup_insert_eq. intros [= <-]. reflexivity.
    + rewrite lookup_insert_ne by exact Hne. apply Hk.
  - unfold updateRecording, bind, prisma_conversation_update, console_log, ret, set_db.
    destruct (db w !! ur_recordingId ureq) as [row |] eqn:Hrow; simpl; [| exact Hk].
    intros id c. simpl.
    destruct (decide (ur_recordingId ureq = id)) as [<- | Hne].
    + rewrite lookup_insert_eq. intros [= <-]. simpl. apply Hk. exact Hrow.
    + rewrite lookup_insert_ne by exact Hne. apply Hk.
  - unfold deleteRecording, bind, prisma_conversation_delete, console_log, ret, set_db.
    destruct (db w !! dr_recordingId dreq) as [row |] eqn:Hrow; simpl; [| exact Hk].
    intros id c. simpl.
    destruct (decide (dr_recordingId dreq = id)) as [<- | Hne].
    + rewrite lookup_delete_eq. discriminate.
    + rewrite lookup_delete_ne by exact Hne. apply Hk.
Qed.

(** X15: in a table keyed by id, the recording [getRecording] resolves to is
    the one that was asked for. *)
Theorem getRecording_returns_requested (id : string) (w w' : World) (g : JsObject) :
  keyed w ->
  getRecording sv {| gr_recordingId := id |} w = (Resolved (Some g), w') ->
  g !! "id" = Some (JStr id) /\ w' = w.
Proof.
  intros Hk Hrun.
  destruct (db w !! id) as [row |] eqn:Hrow.
  - rewrite (getRecording_found sv id w row Hrow) in Hrun.
    destruct (presign sv _ _ _) as [url |]; [| discriminate].
    injection Hrun as <- <-. split; [| reflexivity].
    rewrite <- (Hk id row Hrow) at 1. reflexivity.
  - unfold getRecording, bind, prisma_conversation_findUnique in Hrun; simpl in Hrun.
    rewrite Hrow in Hrun. discriminate.
Qed.

End DeleteAndUpdate.

(** ** The detail view *)

Section ViewProperties.

Context (cl : Client).

(** Splits a goal into its conjuncts. *)
Ltac conjs := repeat match goal with |- _ /\ _ => split end.


(** X17: once the fetch is over the view never shows the spinner: it shows
    the fixed error message, or the record of the response, or, when a
    successful response carries no [data], nothing at all. *)
Theorem screen_after_fetch (recordingId : string) (d : Device) :
  let c := (fetchRecordingDetails cl recordingId initial d).1 in
  screen c = ErrorText "Failed to load recording details" \/
  (exists token data,
     getToken cl = Some token /\
     fetch cl (ENV_prod cl ++ "/recordings/" ++ recordingId)
           ("Bearer " ++ default "null" token) = Response true (JsonValue data) /\
     screen c = match data with Some details => DetailsView details | None => Blank end).
Proof.
  unfold fetchRecordingDetails.
  destruct (getToken cl) as [token |]; simpl; [| left; reflexivity].
  destruct (fetch cl _ _) as [| [|] [| | data]] eqn:Hfetch; simpl;
    try (left; reflexivity).
  right. exists token, data. split; [reflexivity |]. split; [exact Hfetch |].
  destruct data; reflexivity.
Qed.


(** X19: when the player cannot load what was downloaded, the view keeps
    its previous sound, yet the downloaded file stays in local storage. *)
Theorem downloadAudio_unplayable_keeps_file
        (url : string) (c : Component) (d : Device) (details : Details.t) (b : bytes) :
  recordingDetails c = Some details ->
  served cl url = Some b ->
  playable cl b = false ->
  let r := downloadAudio cl url c d in
  sound r.1 = sound c /\ loaded r.2 = loaded d /\
  documents r.2 !! (documentDirectory cl ++ Details.id details ++ ".m4a") = Some b.
Proof.
  intros Hdet Hserved Hplay.
  unfold downloadAudio, downloadAsync, createAsync.
  rewrite Hdet, Hserved; simpl. rewrite lookup_insert_eq, Hplay; simpl.
  conjs; try reflexivity. apply lookup_insert_eq.
Qed.

End ViewProperties.

Section Playback.

(** X20: with its sound loaded, a press on the button toggles the play flag
    and the native player together, touches nothing else of the view, and a
    second press puts the view back exactly as it was. *)
Theorem playRecording_toggles (c : Component) (d : Device) (s : string) :
  sound c = Some s ->
  loaded d = Some s ->
  let r1 := playRecording c d in
  let r2 := playRecording r1.1 r1.2 in
  isPlaying (player r1.1) = negb (isPlaying (player c)) /\
  playing r1.2 = negb (isPlaying (player c)) /\
  position (player r1.1) = position (player c) /\
  duration (player r1.1) = duration (player c) /\
  sound r1.1 = sound c /\
  r2.1 = c /\
  playing r2.2 = isPlaying (player c).
Proof.
  intros Hsound Hloaded.
  destruct c as [ld err det snd [pl la pos dur]]; simpl in *; subst snd.
  unfold playRecording, playAsync, pauseAsync; simpl.
  destruct pl; simpl; rewrite !decide_True by exact Hloaded; simpl;
    rewrite !decide_True by exact Hloaded; simpl; repeat split.
Qed.

(** X21: a press changes nothing of the view or of the player when there is
    no sound, or when the player no longer has the view's sound loaded. *)
Theorem playRecording_nothing_to_play (c : Component) (d : Device) :
  sound c = None \/ (exists s, sound c = Some s /\ loaded d <> Some s) ->
  (playRecording c d).1 = c /\
  playing (playRecording c d).2 = playing d /\
  loaded (playRecording c d).2 = loaded d /\
  documents (playRecording c d).2 = documents d.
Proof.
  unfold playRecording, playAsync, pauseAsync.
  intros [Hnone | (s & Hsome & Hne)].
  - rewrite Hnone. repeat split.
  - rewrite Hsome. destruct (isPlaying (player c)); simpl;
      rewrite decide_False by exact Hne; repeat split.
Qed.

(** X22: presses and the end of playback keep the play flag of the view in
    agreement with the native player. *)
Theorem play_flag_stays_in_sync (c : Component) (d : Device) (millis : Z) :
  in_sync c d ->
  in_sync (playRecording c d).1 (playRecording c d).2 /\
  in_sync (finished millis c d).1 (finished millis c d).2.
Proof.
  unfold in_sync. intros Hsync. split.
  - unfold playRecording, playAsync, pauseAsync.
    destruct (sound c) as [s |]; [| exact Hsync].
    destruct (isPlaying (player c)) eqn:Hp; simpl;
      destruct (decide (loaded d = Some s)); simpl; try reflexivity;
      rewrite Hp; exact Hsync.
  - unfold finished, onPlaybackStatusUpdate; simpl. reflexivity.
Qed.

(** X23: after playback has run to its end the button shows the play icon
    again, and the next press, with the sound still loaded, starts the
    player rather than pausing it. *)
Theorem press_after_finish_plays (c : Component) (d : Device) (s : string) (millis : Z) :
  sound c = Some s ->
  loaded d = Some s ->
  isLoadingAudio (player c) = false ->
  let f := finished millis c d in
  let r := playRecording f.1 f.2 in
  icon f.1 = "play-circle" /\
  position (player f.1) = millis /\
  isPlaying (player r.1) = true /\ playing r.2 = true /\
  icon r.1 = "pause-circle" /\
  hd_error (logged r.2) = Some "playing sound".
Proof.
  intros Hsound Hloaded Hla.
  unfold finished, playRecording, playAsync, icon, onPlaybackStatusUpdate; simpl.
  rewrite Hsound, Hla; simpl.
  rewrite decide_True by exact Hloaded. simpl. rewrite Hla.
  repeat split.
Qed.

End Playback.

(** *** Clock texts *)







(** *** Mounting the view *)

Section Mount.

Context (cl : Client).

Ltac conjs := repeat match goal with |- _ /\ _ => split end.

(** X27: when the backend answers with a record that has a URL, the URL
    serves a file and the player can load it, mounting ends on the record's
    details, with the local copy loaded, nothing playing, and the button
    showing the play icon. *)
Theorem mount_ready (recordingId : string) (d : Device) (token : option string)
        (details : Details.t) (b : bytes) :
  getToken cl = Some token ->
  fetch cl (ENV_prod cl ++ "/recordings/" ++ recordingId)
        ("Bearer " ++ default "null" token) = Response true (JsonValue (Some details)) ->
  truthy (Details.recordingUrl details) = true ->
  served cl (Details.recordingUrl details) = Some b ->
  playable cl b = true ->
  let r := mount cl recordingId initial d in
  screen r.1 = DetailsView details /\
  sound r.1 = Some (documentDirectory cl ++ Details.id details ++ ".m4a") /\
  loaded r.2 = sound r.1 /\
  documents r.2 !! (documentDirectory cl ++ Details.id details ++ ".m4a") = Some b /\
  playing r.2 = false /\
  icon r.1 = "play-circle".
Proof.
  intros Htoken Hfetch Hurl Hserved Hplay.
  unfold mount, fetchRecordingDetails. rewrite Htoken, Hfetch; simpl. rewrite Hurl.
  unfold downloadAudio, downloadAsync, createAsync; simpl.
  rewrite Hserved; simpl. rewrite lookup_insert_eq, Hplay; simpl.
  conjs; try reflexivity. apply lookup_insert_eq.
Qed.

(** X28: when the request for the record fails, mounting ends on the error
    message and no download is attempted: no sound, and local storage and
    the player are as they were. *)
Theorem mount_fetch_failed (recordingId : string) (d : Device) :
  (getToken cl = None \/
   exists token,
     getToken cl = Some token /\
     forall data,
       fetch cl (ENV_prod cl ++ "/recordings/" ++ recordingId)
             ("Bearer " ++ default "null" token) <> Response true (JsonValue data)) ->
  let r := mount cl recordingId initial d in
  screen r.1 = ErrorText "Failed to load recording details" /\
  sound r.1 = None /\
  documents r.2 = documents d /\ loaded r.2 = loaded d /\ playing r.2 = playing d.
Proof.
  unfold mount, fetchRecordingDetails.
  intros [Hnone | (token & Htoken & Hfetch)].
  - rewrite Hnone; simpl. conjs; reflexivity.
  - rewrite Htoken.
    destruct (fetch cl _ _) as [| [|] [| | data]] eqn:Hf; simpl;
      try (conjs; reflexivity).
    exfalso. exact (Hfetch data eq_refl).
Qed.

(** X29: when the record arrives but its audio cannot be downloaded,
    mounting still ends on the record's details with the button showing the
    play icon; there is no sound, and a press changes nothing. *)
Theorem mount_download_failed (recordingId : string) (d : Device) (token : option string)
        (details : Details.t) :
  getToken cl = Some token ->
  fetch cl (ENV_prod cl ++ "/recordings/" ++ recordingId)
        ("Bearer " ++ default "null" token) = Response true (JsonValue (Some details)) ->
  truthy (Details.recordingUrl details) = true ->
  served cl (Details.recordingUrl details) = None ->
  let r := mount cl recordingId initial d in
  screen r.1 = DetailsView details /\
  icon r.1 = "play-circle" /\
  sound r.1 = None /\
  documents r.2 = documents d /\
  (playRecording r.1 r.2).1 = r.1.
Proof.
  intros Htoken Hfetch Hurl Hserved.
  unfold mount, fetchRecordingDetails. rewrite Htoken, Hfetch; simpl. rewrite Hurl.
  unfold downloadAudio, downloadAsync; simpl. rewrite Hserved; simpl.
  conjs; reflexivity.
Qed.

End Mount.

(** ** Instances on the test doubles *)

Lemma createRecording_rejected_witness :
  db (createRecording Stub.services Stub.unreadable_request Stub.world).2 = db Stub.world /\
  (ProbeFailed = TypeError \/ ProbeFailed = ProbeFailed \/
   ProbeFailed = TranscriptionFailed \/ ProbeFailed = StorageFailed \/ ProbeFailed = P2002).
Proof.
  apply (createRecording_rejected Stub.services Stub.unreadable_request Stub.world).
  vm_compute. reflexivity.
Defined.

Lemma createRecording_insert_rejected_keeps_upload_witness :
  exists w',
    createRecording Stub.services Stub.request Scenario.taken_world = (Rejected P2002, w') /\
    bucket w' !! ("recordings", "user1/b2.m4a") = Some (Stub.audio, "audio/x-m4a") /\
    db w' = db Scenario.taken_world.
Proof.
  apply (createRecording_insert_rejected_keeps_upload Stub.services "user1" Stub.audio
           (85 # 2) Stub.full Scenario.taken_world Scenario.older); reflexivity.
Defined.

Lemma createRecording_uploads_body_witness :
  exists b path,
    cr_recordingBody Stub.request = Some b /\
    path = "user1/b2.m4a" /\
    Stub.response Scenario.created !! "filePath" = Some (JStr path) /\
    Stub.response Scenario.created !! "file_path" = Some (JStr path) /\
    bucket Scenario.created.2 !! ("recordings", path) = Some (b, "audio/x-m4a") /\
    forall k, k <> ("recordings", path) ->
              bucket Scenario.created.2 !! k = bucket Stub.world !! k.
Proof.
  apply (createRecording_uploads_body Stub.services Stub.request Stub.world).
  vm_compute. reflexivity.
Defined.

Lemma createRecording_disk_witness :
  fs Scenario.created.2 = delete "/tmp/a1.m4a" (fs Stub.world) /\
  (fs Stub.world !! "/tmp/a1.m4a" = None -> fs Scenario.created.2 = fs Stub.world).
Proof.
  apply (createRecording_disk Stub.services Stub.request Stub.world Scenario.created.2
           (Stub.response Scenario.created)).
  vm_compute. reflexivity.
Defined.

Lemma create_then_get_witness :
  exists id b r g,
    Stub.response Scenario.created !! "id" = Some (JStr id) /\
    cr_recordingBody Stub.request = Some b /\
    transcribe Stub.services b = Some r /\
    getRecording Stub.services {| gr_recordingId := id |} Scenario.created.2
      = (Resolved (Some g), Scenario.created.2) /\
    g !! "recordingUrl" = Some (JStr "https://storage/recordings/user1/b2.m4a?sig") /\
    bucket Scenario.created.2 !! ("recordings", "user1/b2.m4a") = Some (b, "audio/x-m4a") /\
    g !! "topics" = Some (JArr (topic_object <$> default [] (Transcription.allTopics r))) /\
    g !! "utterances"
      = Some (JArr (utterance_object <$> default [] (Transcription.allUtterances r))) /\
    g !! "transcript" = Some (JStr (Transcription.transcript r)) /\
    g !! "title" = Stub.response Scenario.created !! "title" /\
    g !! "duration" = Stub.response Scenario.created !! "duration".
Proof.
  apply (create_then_get Stub.services Stub.request Stub.world Scenario.created.2
           (Stub.response Scenario.created) "https://storage/recordings/user1/b2.m4a?sig").
  - vm_compute. reflexivity.
  - reflexivity.
Defined.

Lemma create_then_list_witness :
  exists l item,
    listRecordings {| lr_userId := "user1" |} Scenario.created.2
      = (Resolved l, Scenario.created.2) /\
    item ∈ l /\
    is_Some (Stub.response Scenario.created !! "id") /\
    item !! "id" = Stub.response Scenario.created !! "id" /\
    item !! "title" = Stub.response Scenario.created !! "title" /\
    item !! "duration" = Stub.response Scenario.created !! "duration".
Proof.
  apply (create_then_list Stub.services Stub.request Stub.world Scenario.created.2
           (Stub.response Scenario.created)).
  vm_compute. reflexivity.
Defined.

Lemma deleteRecording_removes_row_keeps_audio_witness :
  exists w',
    deleteRecording {| dr_recordingId := "row7" |} Stub.world1
      = (Resolved (scalars Stub.stored), w') /\
    (forall j, j <> "row7" -> db w' !! j = db Stub.world1 !! j) /\
    bucket w' = bucket Stub.world1 /\
    getRecording Stub.services {| gr_recordingId := "row7" |} w' = (Resolved None, w').
Proof.
  apply (deleteRecording_removes_row_keeps_audio Stub.services
           {| dr_recordingId := "row7" |} Stub.world1 Stub.stored).
  reflexivity.
Defined.

Lemma deleteRecording_twice_witness :
  (bind (deleteRecording {| dr_recordingId := "row7" |})
        (fun _ => deleteRecording {| dr_recordingId := "row7" |}) Stub.world1).1
  = Rejected P2025.
Proof.
  apply (deleteRecording_twice {| dr_recordingId := "row7" |} Stub.world1 Stub.stored).
  reflexivity.
Defined.

Lemma update_then_get_witness :
  exists o w' g,
    updateRecording
      {| ur_recordingId := "row7"; ur_title := Some "Retro"; ur_transcript := None |}
      Stub.world1 = (Resolved o, w') /\
    getRecording Stub.services {| gr_recordingId := "row7" |} w' = (Resolved (Some g), w') /\
    g !! "title" = Some (JStr "Retro") /\
    g !! "transcript" = Some (JStr "hello") /\
    g !! "topics" = Some (JArr [topic_object "greeting"]) /\
    g !! "utterances" = Some (JArr [utterance_object (Utterance.mk "A" "hello" 0 1)]) /\
    g !! "recordingUrl" = Some (JStr "https://storage/recordings/user1/b2.m4a?sig").
Proof.
  apply (update_then_get Stub.services
           {| ur_recordingId := "row7"; ur_title := Some "Retro"; ur_transcript := None |}
           Stub.world1 Stub.stored "https://storage/recordings/user1/b2.m4a?sig");
    reflexivity.
Defined.

Lemma updateRecording_absent_witness :
  updateRecording
    {| ur_recordingId := "missing"; ur_title := Some "Retro"; ur_transcript := None |}
    Stub.world1 = (Rejected P2025, Stub.world1).
Proof.
  apply (updateRecording_absent
           {| ur_recordingId := "missing"; ur_title := Some "Retro"; ur_transcript := None |}
           Stub.world1).
  reflexivity.
Defined.

Lemma updateRecording_nothing_supplied_witness :
  exists o w',
    updateRecording {| ur_recordingId := "row7"; ur_title := None; ur_transcript := None |}
                    Stub.world1 = (Resolved o, w') /\
    db w' = db Stub.world1.
Proof.
  apply (updateRecording_nothing_supplied "row7" Stub.world1 Stub.stored).
  reflexivity.
Defined.

Lemma handlers_keep_rows_keyed_witness :
  keyed (createRecording Stub.services Stub.request Stub.world1).2 /\
  keyed (updateRecording
           {| ur_recordingId := "row7"; ur_title := Some "Retro"; ur_transcript := None |}
           Stub.world1).2 /\
  keyed (deleteRecording {| dr_recordingId := "row7" |} Stub.world1).2.
Proof.
  apply (handlers_keep_rows_keyed Stub.services Stub.world1).
  intros id c Hrow. simpl in Hrow.
  apply lookup_singleton_Some in Hrow as [<- <-]. reflexivity.
Defined.

Lemma getRecording_returns_requested_witness :
  Stub.response
    (match getRecording Stub.services {| gr_recordingId := "row7" |} Stub.world1 with
     | (Resolved (Some g), w) => (Resolved g, w)
     | (_, w) => (Rejected StorageFailed, w)
     end) !! "id" = Some (JStr "row7") /\
  Stub.world1 = Stub.world1.
Proof.
  apply (getRecording_returns_requested Stub.services "row7" Stub.world1).
  - intros id c Hrow. simpl in Hrow.
    apply lookup_singleton_Some in Hrow as [<- <-]. reflexivity.
  - vm_compute. reflexivity.
Defined.

Lemma downloadAudio_unplayable_keeps_file_witness :
  let r := downloadAudio Scenario.silent_client
             "https://storage/recordings/user1/b2.m4a?sig"
             Scenario.fetched.1 Scenario.fetched.2 in
  sound r.1 = None /\ loaded r.2 = None /\
  documents r.2 !! "file:///docs/row7.m4a" = Some [].
Proof.
  apply (downloadAudio_unplayable_keeps_file Scenario.silent_client
           "https://storage/recordings/user1/b2.m4a?sig"
           Scenario.fetched.1 Scenario.fetched.2 ViewStub.details []); reflexivity.
Defined.

Lemma playRecording_toggles_witness :
  let r1 := playRecording ViewStub.ready.1 ViewStub.ready.2 in
  let r2 := playRecording r1.1 r1.2 in
  isPlaying (player r1.1) = true /\
  playing r1.2 = true /\
  position (player r1.1) = 0%Z /\
  duration (player r1.1) = 0%Z /\
  sound r1.1 = Some "file:///docs/row7.m4a" /\
  r2.1 = ViewStub.ready.1 /\
  playing r2.2 = false.
Proof.
  apply (playRecording_toggles ViewStub.ready.1 ViewStub.ready.2 "file:///docs/row7.m4a");
    reflexivity.
Defined.

Lemma playRecording_nothing_to_play_witness :
  (playRecording initial ViewStub.device).1 = initial /\
  playing (playRecording initial ViewStub.device).2 = false /\
  loaded (playRecording initial ViewStub.device).2 = None /\
  documents (playRecording initial ViewStub.device).2 = ∅.
Proof.
  apply (playRecording_nothing_to_play initial ViewStub.device).
  left. reflexivity.
Defined.

Lemma play_flag_stays_in_sync_witness :
  in_sync (playRecording ViewStub.ready.1 ViewStub.ready.2).1
          (playRecording ViewStub.ready.1 ViewStub.ready.2).2 /\
  in_sync (finished 42000 ViewStub.ready.1 ViewStub.ready.2).1
          (finished 42000 ViewStub.ready.1 ViewStub.ready.2).2.
Proof.
  apply (play_flag_stays_in_sync ViewStub.ready.1 ViewStub.ready.2 42000).
  reflexivity.
Defined.

Lemma press_after_finish_plays_witness :
  let f := finished 42000 (playRecording ViewStub.ready.1 ViewStub.ready.2).1
                          (playRecording ViewStub.ready.1 ViewStub.ready.2).2 in
  let r := playRecording f.1 f.2 in
  icon f.1 = "play-circle" /\
  position (player f.1) = 42000%Z /\
  isPlaying (player r.1) = true /\ playing r.2 = true /\
  icon r.1 = "pause-circle" /\
  hd_error (logged r.2) = Some "playing sound".
Proof.
  apply (press_after_finish_plays (playRecording ViewStub.ready.1 ViewStub.ready.2).1
           (playRecording ViewStub.ready.1 ViewStub.ready.2).2
           "file:///docs/row7.m4a" 42000); reflexivity.
Defined.




Lemma mount_ready_witness :
  let r := mount ViewStub.client "row7" initial ViewStub.device in
  screen r.1 = DetailsView ViewStub.details /\
  sound r.1 = Some "file:///docs/row7.m4a" /\
  loaded r.2 = sound r.1 /\
  documents r.2 !! "file:///docs/row7.m4a" = Some [Byte.x01; Byte.x02] /\
  playing r.2 = false /\
  icon r.1 = "play-circle".
Proof.
  apply (mount_ready ViewStub.client "row7" ViewStub.device (Some "tok")
           ViewStub.details [Byte.x01; Byte.x02]); reflexivity.
Defined.

Lemma mount_fetch_failed_witness :
  let r := mount ViewStub.client "unknown" initial ViewStub.device in
  screen r.1 = ErrorText "Failed to load recording details" /\
  sound r.1 = None /\
  documents r.2 = ∅ /\ loaded r.2 = None /\ playing r.2 = false.
Proof.
  apply (mount_fetch_failed ViewStub.client "unknown" ViewStub.device).
  right. exists (Some "tok"). split; [reflexivity |].
  intros data. vm_compute. discriminate.
Defined.

Lemma mount_download_failed_witness :
  let r := mount Scenario.offline_client "row7" initial ViewStub.device in
  screen r.1 = DetailsView ViewStub.details /\
  icon r.1 = "play-circle" /\
  sound r.1 = None /\
  documents r.2 = ∅ /\
  (playRecording r.1 r.2).1 = r.1.
Proof.
  apply (mount_download_failed Scenario.offline_client "row7" ViewStub.device (Some "tok")
           ViewStub.details); reflexivity.
Defined.
